(** * pyyuv: a raw planar YUV reader/writer (src/pyyuv.py)

    A shallow embedding of class [YuvFile] and of the option validation of
    [parse_options], together with the part of NumPy the class relies on
    ([np.fromfile], [reshape], [tofile], [np.kron], [np.right_shift],
    [np.clip], [np.empty], [np.size] and array arithmetic).

    Integers of the program are [Z]; a NumPy integer array keeps its dtype
    and wraps around at the width of that dtype; [float64] values are the
    kernel's binary64 numbers, so the colour transform is evaluated with
    the very roundings the program performs. *)

From Stdlib Require Import String.
From Stdlib Require Import ZArith List Bool Lia Floats Uint63 Strings.Byte.
Import ListNotations.
Local Open Scope Z_scope.
#[local] Set Warnings "-inexact-float".

(** ** Exceptions *)

(** The exceptions that can occur in the modelled code: [ValueError]
    (a failed [reshape] or broadcast), [TypeError] (a bit shift of a float
    array) and [SystemExit], raised by [parser.error] with its message. *)
Inductive exn : Type :=
| ValueError
| TypeError
| SystemExit (msg : string).

Inductive result (A : Type) : Type :=
| Return (a : A)
| Raise (e : exn).
Arguments Return {A} a.
Arguments Raise {A} e.

Definition bind {A B : Type} (m : result A) (k : A -> result B) : result B :=
  match m with
  | Return a => k a
  | Raise e => Raise e
  end.

Notation "x <- m ;; k" := (bind m (fun x => k))
  (at level 61, m at next level, right associativity).

(** ** NumPy arrays *)

Module np.

(** Integer dtypes that occur: the two sample types and the platform
    integer that [np.kron] promotes to when it multiplies by a Python list
    of ints. *)
Inductive int_dtype : Type := uint8 | uint16 | int64.

Definition itemsize (dt : int_dtype) : nat :=
  match dt with uint8 => 1 | uint16 => 2 | int64 => 8 end%nat.

(** Wrap-around of integer arithmetic at the width of the dtype. *)
Definition wrap (dt : int_dtype) (z : Z) : Z :=
  match dt with
  | uint8 => z mod 2^8
  | uint16 => z mod 2^16
  | int64 => (z + 2^63) mod 2^64 - 2^63
  end.

Definition in_dtype (dt : int_dtype) (z : Z) : Prop :=
  match dt with
  | uint8 => 0 <= z < 2^8
  | uint16 => 0 <= z < 2^16
  | int64 => - 2^63 <= z < 2^63
  end.

(** Type promotion between integer arrays. *)
Definition promote (a b : int_dtype) : int_dtype :=
  match a, b with
  | int64, _ | _, int64 => int64
  | uint16, _ | _, uint16 => uint16
  | uint8, uint8 => uint8
  end.

(** A two-dimensional array: dtype, shape and the row-major buffer.
    [FArr] is a [float64] array. *)
Inductive ndarray : Type :=
| IArr (dt : int_dtype) (rows cols : nat) (data : list Z)
| FArr (rows cols : nat) (data : list float).

Definition shape (a : ndarray) : nat * nat :=
  match a with
  | IArr _ r c _ => (r, c)
  | FArr r c _ => (r, c)
  end.

(** [np.size(a)] *)
Definition size (a : ndarray) : nat := (fst (shape a) * snd (shape a))%nat.

(** [np.empty([r, c])]: a [float64] array; only used with an empty shape,
    where it has no (uninitialised) element. *)
Definition empty (r c : nat) : ndarray := FArr r c (repeat 0%float (r * c)).

(** Well-formed arrays: the buffer fills the shape and every integer is a
    value of the dtype. *)
Definition wf (a : ndarray) : Prop :=
  match a with
  | IArr dt r c d => List.length d = (r * c)%nat /\ Forall (in_dtype dt) d
  | FArr r c d => List.length d = (r * c)%nat
  end.

(** Conversion of an integer of an integer array to [float64]. *)
Definition float_of_Z (z : Z) : float :=
  if z =? - 2^63 then (-9223372036854775808)%float
  else if z <? 0 then PrimFloat.opp (PrimFloat.of_uint63 (Uint63.of_Z (- z)))
  else PrimFloat.of_uint63 (Uint63.of_Z z).

Definition floats (a : ndarray) : list float :=
  match a with
  | IArr _ _ _ d => map float_of_Z d
  | FArr _ _ d => d
  end.

(** *** [np.kron] *)

(** The rows of a row-major buffer: [n] rows of [w] elements. *)
Fixpoint chunks {A : Type} (w n : nat) (l : list A) : list (list A) :=
  match n with
  | O => []
  | S n' => firstn w l :: chunks w n' (skipn w l)
  end.

(** Kronecker product of an [ar x ac] buffer with a [br x bc] buffer:
    every element [x] of [a] becomes the block [x * b]; the result is laid
    out row-major, so a row of [a] yields [br] rows. *)
Definition kron_data {A : Type} (mul : A -> A -> A)
    (ar ac : nat) (a : list A) (br bc : nat) (b : list A) : list A :=
  flat_map
    (fun arow =>
       flat_map (fun brow => flat_map (fun x => map (mul x) brow) arow)
                (chunks bc br b))
    (chunks ac ar a).

Definition kron (a b : ndarray) : ndarray :=
  let '(ar, ac) := shape a in
  let '(br, bc) := shape b in
  match a, b with
  | IArr da _ _ xa, IArr db _ _ xb =>
      let dt := promote da db in
      IArr dt (ar * br) (ac * bc)
        (kron_data (fun x y => wrap dt (x * y)) ar ac xa br bc xb)
  | _, _ =>
      FArr (ar * br) (ac * bc)
        (kron_data PrimFloat.mul ar ac (floats a) br bc (floats b))
  end.

(** *** Arithmetic with a Python scalar

    A Python int that fits the dtype of an integer array leaves the dtype
    unchanged (the scalars of the program are 0, 1 and 128); a Python float
    turns the result into [float64]. *)
Definition add_int (a : ndarray) (k : Z) : ndarray :=
  match a with
  | IArr dt r c d => IArr dt r c (map (fun x => wrap dt (x + k)) d)
  | FArr r c d => FArr r c (map (fun x => PrimFloat.add x (float_of_Z k)) d)
  end.

Definition sub_int (a : ndarray) (k : Z) : ndarray :=
  match a with
  | IArr dt r c d => IArr dt r c (map (fun x => wrap dt (x - k)) d)
  | FArr r c d => FArr r c (map (fun x => PrimFloat.sub x (float_of_Z k)) d)
  end.

Definition mul_float (k : float) (a : ndarray) : ndarray :=
  let '(r, c) := shape a in
  FArr r c (map (fun x => PrimFloat.mul k x) (floats a)).

(** [np.right_shift(a, s)] for a shift count [s >= 0]: defined on integer
    arrays only. *)
Definition right_shift (a : ndarray) (s : Z) : result ndarray :=
  match a with
  | IArr dt r c d => Return (IArr dt r c (map (fun x => Z.shiftr x s) d))
  | FArr _ _ _ => Raise TypeError
  end.

(** *** Arithmetic between arrays, with broadcasting *)

Definition bdim (a b : nat) : option nat :=
  if (a =? b)%nat then Some a
  else if (a =? 1)%nat then Some b
  else if (b =? 1)%nat then Some a
  else None.

(** An [r x c] buffer broadcast to [tr x tc] (a dimension either agrees or
    is 1). *)
Definition stretch {A : Type} (r c tr tc : nat) (d : list A) : list A :=
  let d1 := if (c =? tc)%nat then d else flat_map (fun x => repeat x tc) d in
  if (r =? tr)%nat then d1 else concat (repeat d1 tr).

Definition zip_with {A B C : Type} (f : A -> B -> C)
    (l1 : list A) (l2 : list B) : list C :=
  map (fun p => f (fst p) (snd p)) (combine l1 l2).

Definition binop (fi : Z -> Z -> Z) (ff : float -> float -> float)
    (a b : ndarray) : result ndarray :=
  let '(ar, ac) := shape a in
  let '(br, bc) := shape b in
  match bdim ar br, bdim ac bc with
  | Some r, Some c =>
      match a, b with
      | IArr da _ _ xa, IArr db _ _ xb =>
          let dt := promote da db in
          Return (IArr dt r c
                    (zip_with (fun x y => wrap dt (fi x y))
                       (stretch ar ac r c xa) (stretch br bc r c xb)))
      | _, _ =>
          Return (FArr r c
                    (zip_with ff (stretch ar ac r c (floats a))
                       (stretch br bc r c (floats b))))
      end
  | _, _ => Raise ValueError
  end.

Definition add : ndarray -> ndarray -> result ndarray := binop Z.add PrimFloat.add.
Definition subtract : ndarray -> ndarray -> result ndarray := binop Z.sub PrimFloat.sub.

(** *** [np.clip] *)

(** [minimum(maximum(x, lo), hi)] on [float64]; a NaN stays a NaN. *)
Definition fclip (x lo hi : float) : float :=
  if PrimFloat.is_nan x then x
  else if PrimFloat.ltb x lo then lo
  else if PrimFloat.ltb hi x then hi
  else x.

(** [np.clip(a, lo, hi)] with Python int bounds. *)
Definition clip (a : ndarray) (lo hi : Z) : ndarray :=
  match a with
  | IArr dt r c d => IArr dt r c (map (fun x => Z.min (Z.max x lo) hi) d)
  | FArr r c d =>
      FArr r c (map (fun x => fclip x (float_of_Z lo) (float_of_Z hi)) d)
  end.

(** *** Binary files *)

(** An open binary file: for reading, the bytes from the current position
    to the end; for writing, the bytes written so far. *)
Definition file : Type := list byte.

Definition Z_of_byte (b : byte) : Z := Z.of_N (Byte.to_N b).

Definition byte_of_Z (z : Z) : byte :=
  match Byte.of_N (Z.to_N (z mod 256)) with
  | Some b => b
  | None => x00
  end.

(** Little-endian integers (the byte order of the platform). *)
Definition le_decode (bs : list byte) : Z :=
  fold_right (fun b acc => Z_of_byte b + 256 * acc) 0 bs.

Fixpoint le_encode (n : nat) (z : Z) : list byte :=
  match n with
  | O => []
  | S n' => byte_of_Z z :: le_encode n' (z / 256)
  end.

Definition item_of_bytes (dt : int_dtype) (bs : list byte) : Z :=
  wrap dt (le_decode bs).

Definition bytes_of_item (dt : int_dtype) (z : Z) : list byte :=
  le_encode (itemsize dt) z.

Fixpoint decode_items (dt : int_dtype) (n : nat) (bs : list byte) : list Z :=
  match n with
  | O => []
  | S n' =>
      item_of_bytes dt (firstn (itemsize dt) bs)
      :: decode_items dt n' (skipn (itemsize dt) bs)
  end.

(** [np.fromfile(f, dtype, count)]: the one-dimensional array of the items
    read and the file afterwards. At most [count] items are read ([count <
    0]: all that are left); a read that comes back short is not an error
    and leaves the file at its end. The count is a platform integer: this
    definition covers [count < 2^63]; for a larger count NumPy raises
    [OverflowError], and the statements on reads of a handler assume
    [y_size < 2^63] where the file does not bound the count already. *)
Definition fromfile (f : file) (dt : int_dtype) (count : Z) : list Z * file :=
  let avail := (List.length f / itemsize dt)%nat in
  if count <? 0 then
    (decode_items dt avail f, skipn (avail * itemsize dt) f)
  else if Z.of_nat avail <? count then
    (decode_items dt avail f, [])
  else
    (decode_items dt (Z.to_nat count) f, skipn (Z.to_nat count * itemsize dt) f).

(** [a.reshape(shape)] of a one-dimensional array to a two-dimensional
    shape: [ValueError] unless the sizes agree; one dimension may be
    negative and is then inferred. *)
Definition reshape (dt : int_dtype) (items : list Z) (shp : Z * Z)
  : result ndarray :=
  let n := Z.of_nat (List.length items) in
  let '(r, c) := shp in
  if (0 <=? r) && (0 <=? c) then
    if r * c =? n then Return (IArr dt (Z.to_nat r) (Z.to_nat c) items)
    else Raise ValueError
  else if (r <? 0) && (0 <? c) then
    if n mod c =? 0 then Return (IArr dt (Z.to_nat (n / c)) (Z.to_nat c) items)
    else Raise ValueError
  else if (c <? 0) && (0 <? r) then
    if n mod r =? 0 then Return (IArr dt (Z.to_nat r) (Z.to_nat (n / r)) items)
    else Raise ValueError
  else Raise ValueError.

(** The binary64 bit pattern of a float (NaN as the default quiet NaN). *)
Definition float_bits (x : float) : Z :=
  let sign (s : bool) := if s then 2^63 else 0 in
  match Prim2SF x with
  | S754_zero s => sign s
  | S754_infinity s => sign s + 2047 * 2^52
  | S754_nan => 2047 * 2^52 + 2^51
  | S754_finite s m e =>
      sign s + (if Zpos m <? 2^52 then Zpos m
                else (e + 1075) * 2^52 + (Zpos m - 2^52))
  end.

(** [a.tofile(f)]: the buffer in row-major order, each item in the width
    of the array's own dtype, appended to the file. *)
Definition tofile (a : ndarray) (f : file) : file :=
  match a with
  | IArr dt _ _ d => f ++ flat_map (bytes_of_item dt) d
  | FArr _ _ d => f ++ flat_map (fun x => le_encode 8 (float_bits x)) d
  end.

(** [a[i, j]] on an integer array and on a float array ([None] stands for
    an index out of bounds or an array of the other kind). *)
Definition iitem (a : ndarray) (i j : nat) : option Z :=
  match a with
  | IArr _ r c d =>
      if (i <? r)%nat && (j <? c)%nat then nth_error d (i * c + j) else None
  | FArr _ _ _ => None
  end.

Definition fitem (a : ndarray) (i j : nat) : option float :=
  match a with
  | IArr _ _ _ _ => None
  | FArr r c d =>
      if (i <? r)%nat && (j <? c)%nat then nth_error d (i * c + j) else None
  end.

End np.

(** ** The class [YuvFile] *)

Definition CSPACE_420 : Z := 420.
Definition CSPACE_422 : Z := 422.
Definition DEPTH_8 : Z := 8.
Definition DEPTH_10 : Z := 10.

(** The attributes set by [__init__], except [handle] (initially [None]):
    the state of the open file is passed to [read_frame] and [write_frame]
    explicitly. *)
Record YuvFile : Type := mkYuvFile {
  name : string;
  mode : string;
  width : Z;
  height : Z;
  colour : Z;
  depth : Z;
  h_smpl : Z;
  v_smpl : Z;
  dtype : np.int_dtype;
  round : Z;
  shift : Z;
  y_shape : Z * Z;
  y_size : Z;
  uv_shape : Z * Z;
  uv_size : Z
}.

(** [YuvFile.__init__]. Python 2 [/] on ints is floor division, which is
    [Z.div] for the positive divisors used here. The body has no [raise]
    and no check of its arguments. *)
Definition YuvFile_init (name mode : string) (width height colour depth : Z)
  : result YuvFile :=
  let h_smpl := 2 in
  let v_smpl := if colour =? CSPACE_420 then 2 else 1 in
  let '(dtype, round, shift) :=
    if depth =? DEPTH_10 then (np.uint16, 1, 2) else (np.uint8, 0, 0) in
  let y_shape := (height, width) in
  let y_size := fst y_shape * snd y_shape in
  let uv_shape := (height / v_smpl, width / h_smpl) in
  let uv_size := fst uv_shape * snd uv_shape in
  Return (mkYuvFile name mode width height colour depth h_smpl v_smpl
            dtype round shift y_shape y_size uv_shape uv_size).

(** [YuvFile.__upsample_chroma] *)
Definition upsample_chroma (self : YuvFile) (p : np.ndarray) : np.ndarray :=
  let q := np.kron p (np.IArr np.int64 1 2 [1; 1]) in
  if colour self =? CSPACE_420 then np.kron q (np.IArr np.int64 2 1 [1; 1])
  else q.

(** [YuvFile.to_rgb_8b] *)
Definition to_rgb_8b (self : YuvFile) (y u v : np.ndarray)
  : result (np.ndarray * np.ndarray * np.ndarray) :=
  let cb := upsample_chroma self u in
  let cr := upsample_chroma self v in
  y8 <- np.right_shift (np.add_int y (round self)) (shift self) ;;
  cb8 <- np.right_shift (np.add_int cb (round self)) (shift self) ;;
  cr8 <- np.right_shift (np.add_int cr (round self)) (shift self) ;;
  r0 <- np.add y8 (np.mul_float 1.402%float (np.sub_int cr8 (2^7))) ;;
  let r := np.clip r0 0 (2^8 - 1) in
  g0 <- np.subtract y8 (np.mul_float 0.344%float (np.sub_int cb8 (2^7))) ;;
  g1 <- np.subtract g0 (np.mul_float 0.714%float (np.sub_int cr8 (2^7))) ;;
  let g := np.clip g1 0 (2^8 - 1) in
  b0 <- np.add y8 (np.mul_float 1.772%float (np.sub_int cb8 (2^7))) ;;
  let b := np.clip b0 0 (2^8 - 1) in
  Return (r, g, b).

(** ** Reading and writing frames *)

(** Statements that use the open file and may raise. *)
Definition io (A : Type) : Type := np.file -> result A * np.file.

Definition io_bind {A B : Type} (m : io A) (k : A -> io B) : io B :=
  fun f =>
    match m f with
    | (Return a, f') => k a f'
    | (Raise e, f') => (Raise e, f')
    end.

Definition io_ret {A : Type} (a : A) : io A := fun f => (Return a, f).

Notation "x <-- m ;; k" := (io_bind m (fun x => k))
  (at level 61, m at next level, right associativity).

(** [np.fromfile(self.handle, dtype, count).reshape(shape)] *)
Definition fromfile_reshape (dt : np.int_dtype) (count : Z) (shp : Z * Z)
  : io np.ndarray :=
  fun f =>
    let '(items, f') := np.fromfile f dt count in
    (np.reshape dt items shp, f').

(** [try: body except ValueError: handler] *)
Definition try_except_ValueError {A : Type} (body handler : io A) : io A :=
  fun f =>
    match body f with
    | (Raise ValueError, f') => handler f'
    | other => other
    end.

(** [YuvFile.read_frame] *)
Definition read_frame (self : YuvFile)
  : io (np.ndarray * np.ndarray * np.ndarray) :=
  try_except_ValueError
    (y <-- fromfile_reshape (dtype self) (y_size self) (y_shape self) ;;
     u <-- fromfile_reshape (dtype self) (uv_size self) (uv_shape self) ;;
     v <-- fromfile_reshape (dtype self) (uv_size self) (uv_shape self) ;;
     io_ret (y, u, v))
    (let y := np.empty 0 0 in
     let u := np.empty 0 0 in
     let v := np.empty 0 0 in
     io_ret (y, u, v)).

(** [YuvFile.write_frame] *)
Definition write_frame (self : YuvFile) (y u v : np.ndarray) (f : np.file)
  : np.file :=
  np.tofile v (np.tofile u (np.tofile y f)).

(** ** Command-line validation ([parse_options]) *)

(** The values produced by [parser.parse_args()]: the options and the
    positional arguments left over. *)
Record Options : Type := mkOptions {
  opt_args : list string;
  opt_input : option string;
  opt_output : option string;
  opt_width : Z;
  opt_height : Z;
  opt_colour : Z;
  opt_depth : Z;
  opt_first : Z;
  opt_frames : option Z;
  opt_plot : option Z
}.

(** Truth value of an optional string ([None] and [""] are false). *)
Definition truthy_str (s : option string) : bool :=
  match s with
  | Some s => negb (String.eqb s "")
  | None => false
  end.

Definition str_or_empty (s : option string) : string :=
  match s with Some s => s | None => "" end.

(** The checks of [parse_options] in program order; [parser.error] ends the
    program with [SystemExit]. [isfile] stands for [os.path.isfile]. *)
Definition parse_options (isfile : string -> bool) (opts : Options)
  : result Options :=
  if negb (match opt_args opts with [] => true | _ => false end) then
    Raise (SystemExit "Unexpected arguments")
  else if negb (truthy_str (opt_input opts)) then
    Raise (SystemExit "No input file name specified")
  else if negb (isfile (str_or_empty (opt_input opts))) then
    Raise (SystemExit ("Input file not found: " ++ str_or_empty (opt_input opts)))
  else if (opt_width opts <=? 0) || (opt_height opts <=? 0)
          || negb (opt_width opts mod 2 =? 0)
          || negb (opt_height opts mod 2 =? 0) then
    Raise (SystemExit "Invalid width and/or height")
  else if negb ((opt_colour opts =? CSPACE_420) || (opt_colour opts =? CSPACE_422)) then
    Raise (SystemExit "Invalid colour space")
  else if negb ((opt_depth opts =? DEPTH_8) || (opt_depth opts =? DEPTH_10)) then
    Raise (SystemExit "Invalid bit depth")
  else if opt_first opts <? 0 then
    Raise (SystemExit "Invalid index for first frame")
  else if match opt_frames opts with Some n => n <=? 0 | None => false end then
    Raise (SystemExit "Invalid number of frames")
  else if match opt_plot opts with
          | Some p => negb (p =? 0) && (p <=? 0)
          | None => false
          end then
    Raise (SystemExit "Invalid plot interval")
  else Return opts.

(** The first statements of [main]: the options are validated, then the
    input handler and, when an output name is given, the output handler
    are constructed. *)
Definition main_setup (isfile : string -> bool) (parsed : Options)
  : result (YuvFile * option YuvFile) :=
  opts <- parse_options isfile parsed ;;
  handle <- YuvFile_init (str_or_empty (opt_input opts)) "r"
              (opt_width opts) (opt_height opts) (opt_colour opts) (opt_depth opts) ;;
  ohandle <- (if truthy_str (opt_output opts) then
                o <- YuvFile_init (str_or_empty (opt_output opts)) "w"
                       (opt_width opts) (opt_height opts)
                       (opt_colour opts) (opt_depth opts) ;;
                Return (Some o)
              else Return None) ;;
  Return (handle, ohandle).


(** ** The frame loop of [main] *)

(** What the loop shows to the user: the line printed for a processed
    frame and the arrays handed to [plot_luma] and to [plot_rgb_8b]. *)
Inductive event : Type :=
| PrintFrame (frame : Z)
| PlotLuma (y : np.ndarray)
| PlotRgb (r g b : np.ndarray).

(** The variables of the loop: the open input and output files, the frame
    counter, and what has been shown so far. *)
Record loop_state : Type := mkLoop {
  ls_in : np.file;
  ls_out : np.file;
  ls_frame : Z;
  ls_log : list event
}.

(** [(not opts.frames) or (frame < opts.first + opts.frames)]: [None] and 0
    are false in Python; the sum is only evaluated when [opts.frames] is
    true. *)
Definition loop_cond (opts : Options) (frame : Z) : bool :=
  match opt_frames opts with
  | None => true
  | Some n => (n =? 0) || (frame <? opt_first opts + n)
  end.

(** [opts.plot > 0 and (frame - opts.first) % opts.plot == 0]; in Python 2
    [None > 0] is false. *)
Definition plot_cond (opts : Options) (frame : Z) : bool :=
  match opt_plot opts with
  | None => false
  | Some p => (0 <? p) && ((frame - opt_first opts) mod p =? 0)
  end.

(** The statements of the loop body that follow a successful read. *)
Definition loop_body (opts : Options) (handle : YuvFile)
    (ohandle : option YuvFile) (st : loop_state)
    (y u v : np.ndarray) (in' : np.file) : result loop_state :=
  let frame := ls_frame st in
  if opt_first opts <=? frame then
    let log1 := ls_log st ++ [PrintFrame frame] in
    log2 <- (if plot_cond opts frame then
               rgb <- to_rgb_8b handle y u v ;;
               let '(r, g, b) := rgb in
               Return (log1 ++ [PlotLuma y; PlotRgb r g b])
             else Return log1) ;;
    let out' := match ohandle with
                | Some o => write_frame o y u v (ls_out st)
                | None => ls_out st
                end in
    Return (mkLoop in' out' (frame + 1) log2)
  else Return (mkLoop in' (ls_out st) (frame + 1) (ls_log st)).

(** The [while] loop of [main]; [None] when [fuel] iterations do not
    reach its end. *)
Fixpoint main_loop (fuel : nat) (opts : Options) (handle : YuvFile)
    (ohandle : option YuvFile) (st : loop_state)
  : option (result loop_state) :=
  match fuel with
  | O => None
  | S fuel' =>
      if loop_cond opts (ls_frame st) then
        match read_frame handle (ls_in st) with
        | (Raise e, _) => Some (Raise e)
        | (Return (y, u, v), in') =>
            if (np.size y =? 0)%nat then
              Some (Return (mkLoop in' (ls_out st) (ls_frame st) (ls_log st)))
            else
              match loop_body opts handle ohandle st y u v in' with
              | Raise e => Some (Raise e)
              | Return st' => main_loop fuel' opts handle ohandle st'
              end
        end
      else Some (Return st)
  end.

(** ** Notions used by the statements *)

(** The settings [__init__] derives from its arguments. *)
Definition derived (s : YuvFile)
  : Z * Z * np.int_dtype * Z * Z * (Z * Z) * Z * (Z * Z) * Z :=
  (h_smpl s, v_smpl s, dtype s, round s, shift s,
   y_shape s, y_size s, uv_shape s, uv_size s).

(** The geometry invariant of the specification. *)
Definition valid_geometry (w h : Z) : Prop :=
  0 < w /\ 0 < h /\ w mod 2 = 0 /\ h mod 2 = 0.

Definition bad_geometry (w h : Z) : Prop :=
  w <= 0 \/ h <= 0 \/ w mod 2 <> 0 \/ h mod 2 <> 0.

(** Rounding [x / 2^s] to the nearest integer, halves upwards. *)
Definition round_half_up_shift (x s : Z) : Z := (2 * x + 2^s) / 2^(s + 1).

(** Rounding [x / 2^s] to the nearest integer, halves downwards. *)
Definition round_half_down_shift (x s : Z) : Z :=
  (2 * x + 2^s - 1) / 2^(s + 1).

(** A float lies in [0, 255]. *)
Definition in_0_255 (x : float) : bool :=
  PrimFloat.leb 0%float x && PrimFloat.leb x 255%float.

(** The sentinel of [read_frame]. *)
Definition sentinel : np.ndarray * np.ndarray * np.ndarray :=
  (np.empty 0 0, np.empty 0 0, np.empty 0 0).

(** A plane of integer samples of the given dtype and shape whose samples
    are below [2^bits]. *)
Definition plane (dt : np.int_dtype) (rows cols : Z) (bits : Z)
    (a : np.ndarray) : Prop :=
  exists d,
    a = np.IArr dt (Z.to_nat rows) (Z.to_nat cols) d /\
    List.length d = (Z.to_nat rows * Z.to_nat cols)%nat /\
    Forall (fun x => 0 <= x < 2^bits) d.

Definition odd_width_options : Options :=
  mkOptions [] (Some "in.yuv"%string) None 3 2 420 8 0 None None.

Definition bad_colour (c : Z) : Prop := c <> CSPACE_420 /\ c <> CSPACE_422.
Definition bad_depth (d : Z) : Prop := d <> DEPTH_8 /\ d <> DEPTH_10.

(** The checks that precede the colour check in [parse_options]. *)
Definition earlier_checks_pass (isfile : string -> bool) (o : Options) : Prop :=
  opt_args o = [] /\ truthy_str (opt_input o) = true /\
  isfile (str_or_empty (opt_input o)) = true /\
  valid_geometry (opt_width o) (opt_height o).

Definition colour_444_options : Options :=
  mkOptions [] (Some "in.yuv"%string) None 4 2 444 8 0 None None.

(** The vertical replication factor of [__upsample_chroma]. *)
Definition v_factor (self : YuvFile) : nat :=
  if colour self =? CSPACE_420 then 2%nat else 1%nat.

(** The number of significant bits of a sample. *)
Definition sample_bits (self : YuvFile) : Z :=
  if depth self =? DEPTH_10 then 10 else 8.

(** The colour transform in the words of the specification: normalisation
    [sample8 = (sample + round_bias) >> shift], then
    [R = clip(Y8 + 1.402 (Cr8 - 128), 0, 255)],
    [G = clip(Y8 - 0.344 (Cb8 - 128) - 0.714 (Cr8 - 128), 0, 255)],
    [B = clip(Y8 + 1.772 (Cb8 - 128), 0, 255)]. *)
Definition spec_norm8 (self : YuvFile) (sample : Z) : Z :=
  Z.shiftr (sample + round self) (shift self).

Definition spec_R (y8 cr8 : Z) : float :=
  np.fclip (PrimFloat.add (np.float_of_Z y8)
              (PrimFloat.mul 1.402%float (np.float_of_Z (cr8 - 128))))
           0%float 255%float.

Definition spec_G (y8 cb8 cr8 : Z) : float :=
  np.fclip (PrimFloat.sub
              (PrimFloat.sub (np.float_of_Z y8)
                 (PrimFloat.mul 0.344%float (np.float_of_Z (cb8 - 128))))
              (PrimFloat.mul 0.714%float (np.float_of_Z (cr8 - 128))))
           0%float 255%float.

Definition spec_B (y8 cb8 : Z) : float :=
  np.fclip (PrimFloat.add (np.float_of_Z y8)
              (PrimFloat.mul 1.772%float (np.float_of_Z (cb8 - 128))))
           0%float 255%float.

(** The normalised sample values 0..256 (256 is reached by the 10-bit
    sample 1023), and the check, by evaluation, that the transform maps
    every triple of them into [0, 255]. *)
Definition levels : list Z := map Z.of_nat (seq 0 257).

Definition level_floats : list float := map np.float_of_Z levels.
Definition offsets : list float := map (fun c => np.float_of_Z (c - 128)) levels.
Definition cb_terms : list float := map (PrimFloat.mul 0.344%float) offsets.
Definition cr_terms : list float := map (PrimFloat.mul 0.714%float) offsets.

Definition rgb_check_on (ys ds cbs crs : list float) : bool :=
  forallb
    (fun fy =>
       forallb
         (fun d =>
            in_0_255 (np.fclip (PrimFloat.add fy (PrimFloat.mul 1.402%float d))
                        0%float 255%float)
            && in_0_255 (np.fclip (PrimFloat.add fy (PrimFloat.mul 1.772%float d))
                           0%float 255%float)) ds
       && forallb
            (fun a =>
               let t := PrimFloat.sub fy a in
               forallb
                 (fun b => in_0_255 (np.fclip (PrimFloat.sub t b) 0%float 255%float))
                 crs) cbs) ys.

(** An unsigned 8-bit array. *)
Definition is_uint8 (a : np.ndarray) : Prop :=
  exists r c d, a = np.IArr np.uint8 r c d.

(** Handlers for a 4x2 picture in 4:2:0, 8 and 10 bits deep, as
    [__init__] sets them up. *)
Definition demo_cfg : YuvFile :=
  mkYuvFile "in.yuv" "r" 4 2 420 8 2 2 np.uint8 0 0 (2, 4) 8 (1, 2) 2.

Definition demo_cfg10 : YuvFile :=
  mkYuvFile "in.yuv" "r" 4 2 420 10 2 2 np.uint16 1 2 (2, 4) 8 (1, 2) 2.

(** The three reads of [read_frame], each from where the previous one
    left the file, and the condition that each obtains its full count. *)
Definition y_read (self : YuvFile) (f : np.file) : list Z * np.file :=
  np.fromfile f (dtype self) (y_size self).
Definition u_read (self : YuvFile) (f : np.file) : list Z * np.file :=
  np.fromfile (snd (y_read self f)) (dtype self) (uv_size self).
Definition v_read (self : YuvFile) (f : np.file) : list Z * np.file :=
  np.fromfile (snd (u_read self f)) (dtype self) (uv_size self).

Definition reads_complete (self : YuvFile) (f : np.file) : Prop :=
  Z.of_nat (List.length (fst (y_read self f))) = y_size self /\
  Z.of_nat (List.length (fst (u_read self f))) = uv_size self /\
  Z.of_nat (List.length (fst (v_read self f))) = uv_size self.

(** The frame made of the items of the three reads. *)
Definition frame_read (self : YuvFile) (f : np.file)
  : np.ndarray * np.ndarray * np.ndarray :=
  (np.IArr (dtype self) (Z.to_nat (fst (y_shape self)))
           (Z.to_nat (snd (y_shape self))) (fst (y_read self f)),
   np.IArr (dtype self) (Z.to_nat (fst (uv_shape self)))
           (Z.to_nat (snd (uv_shape self))) (fst (u_read self f)),
   np.IArr (dtype self) (Z.to_nat (fst (uv_shape self)))
           (Z.to_nat (snd (uv_shape self))) (fst (v_read self f))).

(** Bytes of one frame. *)
Definition frame_bytes (self : YuvFile) : Z :=
  Z.of_nat (np.itemsize (dtype self)) * (y_size self + 2 * uv_size self).

(** A plane as [write_frame] expects it: of the handler's dtype, of the
    given shape, well formed. *)
Definition frame_plane (self : YuvFile) (shp : Z * Z) (a : np.ndarray) : Prop :=
  exists d,
    a = np.IArr (dtype self) (Z.to_nat (fst shp)) (Z.to_nat (snd shp)) d /\
    np.wf a.

(** The bytes of one mid-gray 4x2 frame in 4:2:0, 8 bits, and three
    trailing bytes. *)
Definition demo_frame_file : np.file :=
  [x10; x10; x10; x10; x10; x10; x10; x10; x80; x80; x80; x80].
Definition demo_garbage : np.file := [x01; x02; x03].

Definition demo_y : np.ndarray := np.IArr np.uint8 2 4 [16; 16; 16; 16; 16; 16; 16; 16].
Definition demo_u : np.ndarray := np.IArr np.uint8 1 2 [128; 128].
Definition demo_v : np.ndarray := np.IArr np.uint8 1 2 [128; 200].

(** The options [parse_options] accepts. *)
Definition options_ok (isfile : string -> bool) (o : Options) : Prop :=
  opt_args o = [] /\ truthy_str (opt_input o) = true /\
  isfile (str_or_empty (opt_input o)) = true /\
  valid_geometry (opt_width o) (opt_height o) /\
  (opt_colour o = CSPACE_420 \/ opt_colour o = CSPACE_422) /\
  (opt_depth o = DEPTH_8 \/ opt_depth o = DEPTH_10) /\
  0 <= opt_first o /\
  (forall n, opt_frames o = Some n -> 0 < n) /\
  (forall p, opt_plot o = Some p -> 0 <= p).

Definition is_float (a : np.ndarray) : Prop :=
  match a with np.FArr _ _ _ => True | np.IArr _ _ _ _ => False end.

(** Bytes of one frame, as a count. *)
Definition frame_len (self : YuvFile) : nat := Z.to_nat (frame_bytes self).

(** The frame index at which the loop of [main] stops by itself, if any. *)
Definition frame_limit (opts : Options) : option Z :=
  match opt_frames opts with
  | None => None
  | Some n => if n =? 0 then None else Some (opt_first opts + n)
  end.

(** The number of frames the loop reads from a file that holds [avail]
    whole frames, when it starts at index [frame]. *)
Definition frames_read (opts : Options) (frame : Z) (avail : nat) : nat :=
  match frame_limit opts with
  | None => avail
  | Some l => Nat.min avail (Z.to_nat (l - frame))
  end.

(** [a.nbytes]: the number of bytes of the buffer of an array. *)
Definition nbytes (a : np.ndarray) : nat :=
  match a with
  | np.IArr dt r c _ => (r * c * np.itemsize dt)%nat
  | np.FArr r c _ => (r * c * 8)%nat
  end.

(** The output the loop of [main] leaves when it starts at frame index
    [frame] on an input that holds [avail] whole frames of [len] bytes:
    of the frames it reads, those from index [first] on. *)
Definition copied (opts : Options) (frame : Z) (len : nat) (input : np.file)
  : np.file :=
  skipn (Z.to_nat (opt_first opts - frame) * len)
        (firstn (frames_read opts frame (List.length input / len) * len) input).

(** * Properties *)

(** ** Construction and validation *)

Lemma YuvFile_init_returns (n m : string) (w h c d : Z) :
  exists self, YuvFile_init n m w h c d = Return self.
Proof.
  unfold YuvFile_init. destruct (d =? DEPTH_10); eexists; reflexivity.
Qed.

Lemma demo_cfg_init : YuvFile_init "in.yuv" "r" 4 2 420 8 = Return demo_cfg.
Proof. reflexivity. Qed.

Lemma demo_cfg10_init : YuvFile_init "in.yuv" "r" 4 2 420 10 = Return demo_cfg10.
Proof. reflexivity. Qed.

Lemma demo_geometry : valid_geometry 4 2.
Proof. repeat split. Qed.

Lemma parse_options_geometry (isfile : string -> bool) (o : Options) :
  bad_geometry (opt_width o) (opt_height o) ->
  exists msg, parse_options isfile o = Raise (SystemExit msg) /\
    (opt_args o = [] -> truthy_str (opt_input o) = true ->
     isfile (str_or_empty (opt_input o)) = true ->
     msg = "Invalid width and/or height"%string).
Proof.
  intros Hbad. unfold parse_options.
  destruct (opt_args o) as [|a l]; cbn [negb];
    [|eexists; split; [reflexivity| discriminate]].
  destruct (truthy_str (opt_input o)); cbn [negb];
    [|eexists; split; [reflexivity| discriminate]].
  destruct (isfile _); cbn [negb];
    [|eexists; split; [reflexivity| discriminate]].
  assert (Hg : (opt_width o <=? 0) || (opt_height o <=? 0)
               || negb (opt_width o mod 2 =? 0)
               || negb (opt_height o mod 2 =? 0) = true).
  { unfold bad_geometry in Hbad.
    destruct (Z.leb_spec (opt_width o) 0); [reflexivity|].
    destruct (Z.leb_spec (opt_height o) 0); [reflexivity|].
    destruct (Z.eqb_spec (opt_width o mod 2) 0); [|reflexivity].
    destruct (Z.eqb_spec (opt_height o mod 2) 0); [|reflexivity].
    lia. }
  rewrite Hg. eexists; split; [reflexivity | reflexivity].
Qed.

Lemma main_setup_raises (isfile : string -> bool) (o : Options) (e : exn) :
  parse_options isfile o = Raise e -> main_setup isfile o = Raise e.
Proof. intros H. unfold main_setup. rewrite H. reflexivity. Qed.

(** C6 (as the code has it): a width or height that is non-positive or odd
    is rejected by [parse_options] with [SystemExit] (message "Invalid
    width and/or height" when the earlier checks pass), so that [main]
    stops before it constructs any [YuvFile]; the constructor itself checks
    nothing and returns an object for every width and height. *)
Theorem geometry_rejected_by_parse_options
    (isfile : string -> bool) (o : Options) :
  bad_geometry (opt_width o) (opt_height o) ->
  (exists msg,
      parse_options isfile o = Raise (SystemExit msg) /\
      main_setup isfile o = Raise (SystemExit msg) /\
      (opt_args o = [] -> truthy_str (opt_input o) = true ->
       isfile (str_or_empty (opt_input o)) = true ->
       msg = "Invalid width and/or height"%string)) /\
  (forall n m w h c d, exists self, YuvFile_init n m w h c d = Return self).
Proof.
  intros Hbad. split.
  - destruct (parse_options_geometry isfile o Hbad) as [msg [H1 H2]].
    exists msg. repeat split; auto using main_setup_raises.
  - intros. apply YuvFile_init_returns.
Qed.


Lemma geometry_rejected_by_parse_options_witness :
  bad_geometry 3 2 /\
  exists msg,
    parse_options (fun _ => true) odd_width_options = Raise (SystemExit msg) /\
    msg = "Invalid width and/or height"%string.
Proof.
  assert (Hbad : bad_geometry (opt_width odd_width_options)
                              (opt_height odd_width_options)).
  { right; right; left. discriminate. }
  split; [exact Hbad|].
  destruct (geometry_rejected_by_parse_options (fun _ => true)
              odd_width_options Hbad) as [[msg [H1 [_ H3]]] _].
  exists msg. split; [exact H1|].
  apply H3; reflexivity.
Defined.

(** C6 as stated fails: constructing with width 3 raises nothing and yields
    a handler whose chroma planes are one sample wide. *)
Lemma construction_odd_width_succeeds :
  ~ (forall w h : Z, bad_geometry w h ->
       exists e, YuvFile_init "in.yuv" "r" w h 420 8 = Raise e) /\
  exists self,
    YuvFile_init "in.yuv" "r" 3 2 420 8 = Return self /\
    y_shape self = (2, 3) /\ uv_shape self = (1, 1).
Proof.
  split.
  - intros H. destruct (H 3 2) as [e He].
    + right; right; left. discriminate.
    + discriminate He.
  - eexists. split; [reflexivity|]. split; reflexivity.
Qed.


Lemma valid_geometry_check (w h : Z) :
  valid_geometry w h ->
  (w <=? 0) || (h <=? 0) || negb (w mod 2 =? 0) || negb (h mod 2 =? 0) = false.
Proof.
  intros (Hw & Hh & Hw2 & Hh2). rewrite Hw2, Hh2. cbn.
  destruct (Z.leb_spec w 0); [lia|]. destruct (Z.leb_spec h 0); [lia|].
  reflexivity.
Qed.

Lemma parse_options_enums (isfile : string -> bool) (o : Options) :
  bad_colour (opt_colour o) \/ bad_depth (opt_depth o) ->
  exists msg, parse_options isfile o = Raise (SystemExit msg) /\
    (earlier_checks_pass isfile o ->
     (bad_colour (opt_colour o) -> msg = "Invalid colour space"%string) /\
     (~ bad_colour (opt_colour o) -> msg = "Invalid bit depth"%string)).
Proof.
  intros Hbad. unfold parse_options, earlier_checks_pass.
  destruct (opt_args o) as [|a l]; cbn [negb];
    [|eexists; split; [reflexivity| intros (? & _); discriminate]].
  destruct (truthy_str (opt_input o)); cbn [negb];
    [|eexists; split; [reflexivity| intros (_ & ? & _); discriminate]].
  destruct (isfile _); cbn [negb];
    [|eexists; split; [reflexivity| intros (_ & _ & ? & _); discriminate]].
  destruct ((opt_width o <=? 0) || (opt_height o <=? 0)
            || negb (opt_width o mod 2 =? 0)
            || negb (opt_height o mod 2 =? 0)) eqn:Hg.
  { eexists; split; [reflexivity|]. intros (_ & _ & _ & Hv).
    apply valid_geometry_check in Hv. congruence. }
  unfold bad_colour, bad_depth in *.
  destruct (Z.eqb_spec (opt_colour o) CSPACE_420) as [Hc|Hc];
    destruct (Z.eqb_spec (opt_colour o) CSPACE_422) as [Hc'|Hc']; cbn [orb negb];
    try (eexists; split; [reflexivity|]; intros _; split;
         [reflexivity | intros Hn; exfalso; apply Hn; split; assumption]).
  all: destruct (Z.eqb_spec (opt_depth o) DEPTH_8) as [Hd|Hd];
    destruct (Z.eqb_spec (opt_depth o) DEPTH_10) as [Hd'|Hd']; cbn [orb negb];
    try (exfalso; lia);
    eexists; (split; [reflexivity|]); intros _;
    (split; [intros [? ?]; exfalso; lia | reflexivity]).
Qed.

(** C7 (as the code has it): a colour space other than 420 and 422, or a
    bit depth other than 8 and 10, is rejected by [parse_options] with
    [SystemExit] ("Invalid colour space", else "Invalid bit depth", when
    the earlier checks pass), so that [main] stops before it constructs a
    [YuvFile]; the constructor itself returns an object for every colour
    and depth value. *)
Theorem enums_rejected_by_parse_options
    (isfile : string -> bool) (o : Options) :
  bad_colour (opt_colour o) \/ bad_depth (opt_depth o) ->
  (exists msg,
      parse_options isfile o = Raise (SystemExit msg) /\
      main_setup isfile o = Raise (SystemExit msg) /\
      (earlier_checks_pass isfile o ->
       (bad_colour (opt_colour o) -> msg = "Invalid colour space"%string) /\
       (~ bad_colour (opt_colour o) -> msg = "Invalid bit depth"%string))) /\
  (forall n m w h c d, exists self, YuvFile_init n m w h c d = Return self).
Proof.
  intros Hbad. split.
  - destruct (parse_options_enums isfile o Hbad) as [msg [H1 H2]].
    exists msg. repeat split; auto using main_setup_raises; apply H2; assumption.
  - intros. apply YuvFile_init_returns.
Qed.


Lemma enums_rejected_by_parse_options_witness :
  (bad_colour 444 \/ bad_depth 8) /\
  exists msg,
    parse_options (fun _ => true) colour_444_options = Raise (SystemExit msg) /\
    msg = "Invalid colour space"%string.
Proof.
  assert (Hc : bad_colour (opt_colour colour_444_options)).
  { split; discriminate. }
  split; [left; exact Hc|].
  destruct (enums_rejected_by_parse_options (fun _ => true)
              colour_444_options (or_introl Hc)) as [[msg [H1 [_ H3]]] _].
  exists msg. split; [exact H1|].
  apply H3; [|exact Hc].
  repeat split; reflexivity.
Defined.

(** C7 as stated fails: constructing with colour 444 and depth 12 raises
    nothing; the object is set up as for 4:2:2 and 8 bits. *)
Lemma construction_unknown_enums_succeeds :
  ~ (forall c d : Z, bad_colour c \/ bad_depth d ->
       exists e, YuvFile_init "in.yuv" "r" 4 2 c d = Raise e) /\
  exists self,
    YuvFile_init "in.yuv" "r" 4 2 444 12 = Return self /\
    v_smpl self = 1 /\ dtype self = np.uint8.
Proof.
  split.
  - intros H. destruct (H 444 12) as [e He].
    + left. split; discriminate.
    + discriminate He.
  - eexists. split; [reflexivity|]. split; reflexivity.
Qed.

(** C10: a colour value other than 420 gives the object the settings and
    the behaviour of 4:2:2 (vertical factor 1); a depth value other than 10
    gives those of 8 bits ([uint8] samples, shift 0, bias 0); the colour
    value influences nothing but the vertical factor and the chroma shape
    and size, the depth value nothing but dtype, bias and shift. *)
Theorem init_fallback_settings (n m : string) (w h c d : Z) :
  exists self,
    YuvFile_init n m w h c d = Return self /\
    (c <> CSPACE_420 ->
     exists s422,
       YuvFile_init n m w h CSPACE_422 d = Return s422 /\
       derived self = derived s422 /\ v_smpl self = 1 /\
       (forall p, upsample_chroma self p = upsample_chroma s422 p) /\
       (forall y u v, to_rgb_8b self y u v = to_rgb_8b s422 y u v) /\
       (forall f, read_frame self f = read_frame s422 f)) /\
    (d <> DEPTH_10 ->
     exists s8,
       YuvFile_init n m w h c DEPTH_8 = Return s8 /\
       derived self = derived s8 /\
       dtype self = np.uint8 /\ shift self = 0 /\ round self = 0 /\
       (forall p, upsample_chroma self p = upsample_chroma s8 p) /\
       (forall y u v, to_rgb_8b self y u v = to_rgb_8b s8 y u v) /\
       (forall f, read_frame self f = read_frame s8 f)) /\
    (forall c' s', YuvFile_init n m w h c' d = Return s' ->
       (h_smpl self, dtype self, round self, shift self, y_shape self, y_size self)
       = (h_smpl s', dtype s', round s', shift s', y_shape s', y_size s')) /\
    (forall d' s', YuvFile_init n m w h c d' = Return s' ->
       (h_smpl self, v_smpl self, y_shape self, y_size self,
        uv_shape self, uv_size self)
       = (h_smpl s', v_smpl s', y_shape s', y_size s', uv_shape s', uv_size s')).
Proof.
  unfold YuvFile_init.
  destruct (Z.eqb_spec d DEPTH_10) as [Hd|Hd];
    destruct (Z.eqb_spec c CSPACE_420) as [Hc|Hc];
    eexists; (split; [reflexivity|]); (split; [|split; [|split]]).
  all: try (intros Hn; exfalso; apply Hn; assumption).
  all: try (intros c' s'; destruct (c' =? CSPACE_420); intros Hs;
            injection Hs as <-; reflexivity).
  all: try (intros d' s'; destruct (d' =? DEPTH_10); intros Hs;
            injection Hs as <-; reflexivity).
  all: intros _; eexists; (split; [reflexivity|]);
    unfold upsample_chroma, to_rgb_8b, read_frame, upsample_chroma; cbn;
    try rewrite (proj2 (Z.eqb_neq c CSPACE_420) Hc);
    repeat split; reflexivity.
Qed.

Lemma init_fallback_settings_witness :
  exists self s422 s8,
    YuvFile_init "in.yuv" "r" 4 2 444 12 = Return self /\
    YuvFile_init "in.yuv" "r" 4 2 CSPACE_422 12 = Return s422 /\
    YuvFile_init "in.yuv" "r" 4 2 444 DEPTH_8 = Return s8 /\
    derived self = derived s422 /\ derived self = derived s8.
Proof.
  destruct (init_fallback_settings "in.yuv" "r" 4 2 444 12)
    as (self & Hs & H422 & H8 & _).
  destruct H422 as (s422 & E422 & D422 & _); [discriminate|].
  destruct H8 as (s8 & E8 & D8 & _); [discriminate|].
  exists self, s422, s8. repeat split; assumption.
Defined.

(** ** Facts on row-major buffers *)

Section Buffers.
Context {A B : Type}.

Lemma concat_chunks (w n : nat) (l : list A) :
  List.length l = (n * w)%nat -> concat (np.chunks w n l) = l.
Proof.
  revert l. induction n as [|n IH]; intros l Hl; cbn [np.chunks concat].
  - destruct l; [reflexivity | discriminate].
  - rewrite IH; [apply firstn_skipn|].
    rewrite length_skipn. lia.
Qed.

Lemma flat_map_rows (g : A -> list B) (rows : list (list A)) :
  flat_map (fun row => flat_map g row) rows = flat_map g (concat rows).
Proof.
  induction rows as [|r rows IH]; cbn [flat_map concat]; [reflexivity|].
  rewrite flat_map_app, IH. reflexivity.
Qed.

Lemma half_SS (k : nat) : (S (S k) / 2 = S (k / 2))%nat.
Proof.
  replace (S (S k)) with (k + 1 * 2)%nat by lia.
  rewrite Nat.div_add by discriminate. lia.
Qed.

(** Horizontal stretch: every element occurs twice in a row. *)
Lemma nth_error_hstretch (g : A -> B) (l : list A) (k : nat) :
  nth_error (flat_map (fun x => [g x; g x]) l) k
  = option_map g (nth_error l (k / 2)).
Proof.
  revert k. induction l as [|a l IH]; intros k.
  - cbn [flat_map]. rewrite !nth_error_nil. reflexivity.
  - destruct k as [|[|k]]; [reflexivity | reflexivity |].
    rewrite half_SS. cbn [flat_map app nth_error]. apply IH.
Qed.

(** Vertical stretch: every row occurs twice in a column. *)
Lemma nth_error_vstretch (g : A -> B) (c n : nat) (l : list A) (i j : nat) :
  List.length l = (n * c)%nat -> (i < 2 * n)%nat -> (j < c)%nat ->
  nth_error (flat_map (fun row => map g row ++ map g row) (np.chunks c n l))
            (i * c + j)
  = option_map g (nth_error l (i / 2 * c + j)).
Proof.
  revert l i. induction n as [|n IH]; intros l i Hl Hi Hj; [lia|].
  cbn [np.chunks flat_map].
  assert (Hf : List.length (map g (firstn c l)) = c).
  { rewrite length_map, firstn_length_le; lia. }
  destruct i as [|[|i]].
  - rewrite !nth_error_app1 by (rewrite ?length_app; lia).
    rewrite nth_error_map, nth_error_firstn.
    replace (_ <? _)%nat with true by (symmetry; apply Nat.ltb_lt; lia).
    reflexivity.
  - rewrite nth_error_app1 by (rewrite ?length_app; lia).
    rewrite nth_error_app2 by lia.
    rewrite Hf. replace (1 * c + j - c)%nat with j by lia.
    rewrite nth_error_map, nth_error_firstn.
    replace (_ <? _)%nat with true by (symmetry; apply Nat.ltb_lt; lia).
    reflexivity.
  - rewrite nth_error_app2 by (rewrite length_app; lia).
    rewrite length_app, Hf.
    replace (S (S i) * c + j - (c + c))%nat with (i * c + j)%nat by lia.
    rewrite IH by (rewrite ?length_skipn; lia).
    rewrite nth_error_skipn, half_SS. f_equal. f_equal. lia.
Qed.

Lemma nth_error_zip_with {C : Type} (f : A -> B -> C)
    (l1 : list A) (l2 : list B) (k : nat) :
  nth_error (np.zip_with f l1 l2) k
  = match nth_error l1 k, nth_error l2 k with
    | Some a, Some b => Some (f a b)
    | _, _ => None
    end.
Proof.
  unfold np.zip_with. revert l2 k.
  induction l1 as [|a l1 IH]; intros l2 k.
  - cbn. rewrite !nth_error_nil. reflexivity.
  - destruct l2 as [|b l2].
    + cbn [combine map]. rewrite !nth_error_nil.
      destruct (nth_error _ k); reflexivity.
    + destruct k as [|k]; [reflexivity|]. cbn [combine map nth_error].
      apply IH.
Qed.

Lemma stretch_same (r c : nat) (d : list A) : np.stretch r c r c d = d.
Proof. unfold np.stretch. rewrite !Nat.eqb_refl. reflexivity. Qed.

End Buffers.

Lemma length_flat_map_const {A B : Type} (f : A -> list B) (n : nat)
    (l : list A) :
  (forall x, In x l -> List.length (f x) = n) ->
  List.length (flat_map f l) = (List.length l * n)%nat.
Proof.
  induction l as [|a l IH]; intros H; cbn [flat_map List.length]; [reflexivity|].
  rewrite length_app, (H a (or_introl eq_refl)), IH; [lia|].
  intros x Hx. apply H. right. exact Hx.
Qed.

Lemma chunks_length {A : Type} (w n : nat) (l : list A) :
  List.length (np.chunks w n l) = n.
Proof.
  revert l. induction n as [|n IH]; intros l; cbn; [reflexivity | now rewrite IH].
Qed.

Lemma chunks_row_length {A : Type} (w n : nat) (l row : list A) :
  List.length l = (n * w)%nat -> In row (np.chunks w n l) ->
  List.length row = w.
Proof.
  revert l. induction n as [|n IH]; intros l Hl [].
  - subst row. apply firstn_length_le. lia.
  - eapply IH; [|eassumption]. rewrite length_skipn. lia.
Qed.

Lemma bdim_same (n : nat) : np.bdim n n = Some n.
Proof. unfold np.bdim. rewrite Nat.eqb_refl. reflexivity. Qed.

(** The two stretches of [__upsample_chroma] as Kronecker products. *)
Lemma kron_data_hstretch {A : Type} (mul : A -> A -> A) (one : A)
    (r c : nat) (d : list A) :
  List.length d = (r * c)%nat ->
  np.kron_data mul r c d 1 2 [one; one]
  = flat_map (fun x => [mul x one; mul x one]) d.
Proof.
  intros Hd. unfold np.kron_data. cbn [np.chunks firstn skipn flat_map map].
  rewrite <- (concat_chunks c r d Hd) at 2.
  rewrite <- flat_map_rows. apply flat_map_ext. intros row.
  apply app_nil_r.
Qed.

Lemma kron_data_vstretch {A : Type} (mul : A -> A -> A) (one : A)
    (r c : nat) (d : list A) :
  np.kron_data mul r c d 2 1 [one; one]
  = flat_map (fun row => map (fun x => mul x one) row
                         ++ map (fun x => mul x one) row) (np.chunks c r d).
Proof.
  unfold np.kron_data. cbn [np.chunks firstn skipn flat_map map].
  apply flat_map_ext. intros row. rewrite app_nil_r.
  assert (H : flat_map (fun x => [mul x one]) row
              = map (fun x => mul x one) row).
  { induction row as [|x row IH]; cbn; [reflexivity | now rewrite IH]. }
  rewrite H. reflexivity.
Qed.

(** ** Chroma upsampling *)

Lemma wrap_int64_small (z : Z) : - 2^63 <= z < 2^63 -> np.wrap np.int64 z = z.
Proof. intros H. unfold np.wrap. rewrite Z.mod_small; lia. Qed.

Lemma in_dtype_int64 (dt : np.int_dtype) (z : Z) :
  np.in_dtype dt z -> - 2^63 <= z < 2^63.
Proof. destruct dt; cbn; lia. Qed.

Lemma promote_int64 (dt : np.int_dtype) : np.promote dt np.int64 = np.int64.
Proof. destruct dt; reflexivity. Qed.


Lemma index_in_plane (r c a b : nat) :
  (a < r)%nat -> (b < c)%nat -> (a * c + b < r * c)%nat.
Proof. intros Ha Hb. nia. Qed.

Lemma upsample_chroma_int (self : YuvFile) (dt : np.int_dtype)
    (r c : nat) (d : list Z) :
  List.length d = (r * c)%nat -> Forall (np.in_dtype dt) d ->
  exists out,
    upsample_chroma self (np.IArr dt r c d)
    = np.IArr np.int64 (r * v_factor self) (c * 2) out /\
    List.length out = (r * v_factor self * (c * 2))%nat /\
    forall i j, (i < r * v_factor self)%nat -> (j < c * 2)%nat ->
      exists x,
        nth_error d (i / v_factor self * c + j / 2) = Some x /\
        nth_error out (i * (c * 2) + j) = Some x.
Proof.
  intros Hd Hin.
  set (m := fun x : Z => np.wrap np.int64 (x * 1)).
  assert (Hm : forall x, - 2^63 <= x < 2^63 -> m x = x).
  { intros x Hx. unfold m. rewrite Z.mul_1_r. now apply wrap_int64_small. }
  assert (Hq : np.kron (np.IArr dt r c d) (np.IArr np.int64 1 2 [1; 1])
               = np.IArr np.int64 (r * 1) (c * 2) (flat_map (fun x => [m x; m x]) d)).
  { unfold np.kron. cbn [np.shape]. rewrite promote_int64.
    rewrite kron_data_hstretch by exact Hd. reflexivity. }
  assert (Hlq : List.length (flat_map (fun x => [m x; m x]) d) = (r * (c * 2))%nat).
  { rewrite (length_flat_map_const _ 2) by reflexivity. lia. }
  assert (Hget : forall k, (k < List.length d)%nat ->
                 exists x, nth_error d k = Some x /\ - 2^63 <= x < 2^63).
  { intros k Hk. destruct (nth_error d k) as [x|] eqn:E.
    - exists x. split; [reflexivity|].
      apply nth_error_In in E. rewrite Forall_forall in Hin.
      eapply in_dtype_int64, Hin, E.
    - apply nth_error_None in E. lia. }
  unfold upsample_chroma, v_factor. rewrite Hq.
  destruct (colour self =? CSPACE_420).
  - unfold np.kron. cbn [np.shape np.promote].
    rewrite kron_data_vstretch. fold m.
    eexists. split; [f_equal; lia|]. split.
    + rewrite (length_flat_map_const _ (c * 2 + c * 2)).
      * rewrite chunks_length. lia.
      * intros row Hrow. rewrite length_app, !length_map.
        assert (Hlq' : List.length (flat_map (fun x => [m x; m x]) d)
                       = (r * 1 * (c * 2))%nat) by lia.
        rewrite (chunks_row_length _ _ _ _ Hlq' Hrow). reflexivity.
    + intros i j Hi Hj.
      rewrite nth_error_vstretch by lia.
      rewrite nth_error_hstretch.
      replace ((i / 2 * (c * 2) + j) / 2)%nat with (i / 2 * c + j / 2)%nat.
      2:{ replace (i / 2 * (c * 2) + j)%nat with (j + (i / 2 * c) * 2)%nat by lia.
          rewrite Nat.div_add by discriminate. lia. }
      destruct (Hget (i / 2 * c + j / 2)%nat) as [x [Hx Hr]].
      { rewrite Hd. apply index_in_plane.
        - apply Nat.Div0.div_lt_upper_bound. lia.
        - apply Nat.Div0.div_lt_upper_bound. lia. }
      exists x. split; [exact Hx|]. rewrite Hx. cbn [option_map].
      rewrite !Hm by (rewrite ?Hm; assumption). reflexivity.
  - eexists. split; [reflexivity|]. split; [rewrite Hlq; lia|].
    intros i j Hi Hj. rewrite nth_error_hstretch.
    replace ((i * (c * 2) + j) / 2)%nat with (i / 1 * c + j / 2)%nat.
    2:{ replace (i * (c * 2) + j)%nat with (j + (i * c) * 2)%nat by lia.
        rewrite Nat.div_add by discriminate. rewrite Nat.div_1_r. lia. }
    destruct (Hget (i / 1 * c + j / 2)%nat) as [x [Hx Hr]].
    { rewrite Hd, Nat.div_1_r. apply index_in_plane; [lia|].
      apply Nat.Div0.div_lt_upper_bound. lia. }
    exists x. split; [exact Hx|]. rewrite Hx. cbn [option_map].
    rewrite Hm by assumption. reflexivity.
Qed.

Lemma init_fields (n m : string) (w h c d : Z) (self : YuvFile) :
  YuvFile_init n m w h c d = Return self ->
  colour self = c /\ depth self = d /\
  v_smpl self = (if c =? CSPACE_420 then 2 else 1) /\
  dtype self = (if d =? DEPTH_10 then np.uint16 else np.uint8) /\
  round self = (if d =? DEPTH_10 then 1 else 0) /\
  shift self = (if d =? DEPTH_10 then 2 else 0) /\
  y_shape self = (h, w) /\ y_size self = h * w /\
  uv_shape self = (h / (if c =? CSPACE_420 then 2 else 1), w / 2) /\
  uv_size self = h / (if c =? CSPACE_420 then 2 else 1) * (w / 2).
Proof.
  unfold YuvFile_init. destruct (d =? DEPTH_10); intros H;
    injection H as <-; cbn; repeat split; reflexivity.
Qed.

Lemma to_nat_half (z : Z) :
  0 < z -> z mod 2 = 0 -> (Z.to_nat (z / 2) * 2)%nat = Z.to_nat z.
Proof.
  intros Hz Hm.
  assert (H : z = 2 * (z / 2)) by (apply Z.div_exact; lia).
  rewrite H at 2. rewrite Z2Nat.inj_mul by lia.
  change (Z.to_nat 2) with 2%nat. lia.
Qed.

Lemma chroma_shape_nat (self : YuvFile) (n m : string) (w h c d : Z) :
  YuvFile_init n m w h c d = Return self ->
  valid_geometry w h ->
  (Z.to_nat (fst (uv_shape self)) * v_factor self)%nat = Z.to_nat h /\
  (Z.to_nat (snd (uv_shape self)) * 2)%nat = Z.to_nat w.
Proof.
  intros Hinit (Hw & Hh & Hw2 & Hh2).
  destruct (init_fields _ _ _ _ _ _ _ Hinit)
    as (Hc & _ & _ & _ & _ & _ & _ & _ & Huv & _).
  unfold v_factor. rewrite Huv, Hc. cbn [fst snd].
  split; [|apply to_nat_half; assumption].
  destruct (c =? CSPACE_420).
  - apply to_nat_half; assumption.
  - rewrite Z.div_1_r. lia.
Qed.

(** C4: on a chroma plane of the configured chroma shape,
    [__upsample_chroma] returns an array of luma shape in which
    [output[i][j] = input[i div v][j div 2]], with [v = 2] for 4:2:0 (2x2
    blocks) and [v = 1] otherwise (blocks of one row and two columns). *)
Theorem upsample_chroma_block_replication
    (n m : string) (w h c dp : Z) (self : YuvFile)
    (dt : np.int_dtype) (d : list Z) :
  YuvFile_init n m w h c dp = Return self ->
  valid_geometry w h ->
  let p := np.IArr dt (Z.to_nat (fst (uv_shape self)))
                      (Z.to_nat (snd (uv_shape self))) d in
  np.wf p ->
  v_factor self = (if c =? CSPACE_420 then 2%nat else 1%nat) /\
  np.shape (upsample_chroma self p)
  = (Z.to_nat (fst (y_shape self)), Z.to_nat (snd (y_shape self))) /\
  forall i j, (i < Z.to_nat h)%nat -> (j < Z.to_nat w)%nat ->
    exists x,
      np.iitem p (i / v_factor self) (j / 2) = Some x /\
      np.iitem (upsample_chroma self p) i j = Some x.
Proof.
  intros Hinit Hgeo p [Hlen Hin].
  destruct (chroma_shape_nat _ _ _ _ _ _ _ Hinit Hgeo) as [Hr Hc].
  destruct (init_fields _ _ _ _ _ _ _ Hinit)
    as (Hcol & _ & _ & _ & _ & _ & Hys & _).
  destruct (upsample_chroma_int self dt _ _ d Hlen Hin) as [out [Hout [Hlo Hidx]]].
  fold p in Hout. rewrite Hout, Hys. cbn [np.shape fst snd].
  split; [unfold v_factor; now rewrite Hcol|].
  split; [now rewrite Hr, Hc|].
  intros i j Hi Hj.
  destruct (Hidx i j) as [x [Hx Ho]]; [lia | lia|].
  exists x. unfold p, np.iitem. rewrite Hr, Hc.
  assert (Hv : (0 < v_factor self)%nat)
    by (unfold v_factor; destruct (colour self =? CSPACE_420); lia).
  assert (Hi' : (i / v_factor self < Z.to_nat (fst (uv_shape self)))%nat).
  { apply Nat.Div0.div_lt_upper_bound. lia. }
  assert (Hj' : (j / 2 < Z.to_nat (snd (uv_shape self)))%nat).
  { apply Nat.Div0.div_lt_upper_bound. lia. }
  rewrite (proj2 (Nat.ltb_lt _ _) Hi'), (proj2 (Nat.ltb_lt _ _) Hj').
  rewrite (proj2 (Nat.ltb_lt _ _) Hi), (proj2 (Nat.ltb_lt _ _) Hj).
  cbn [andb]. split; [exact Hx|].
  rewrite <- Hc. exact Ho.
Qed.

Lemma upsample_chroma_block_replication_witness :
  np.shape (upsample_chroma demo_cfg (np.IArr np.uint8 1 2 [1; 2])) = (2, 4)%nat /\
  np.iitem (upsample_chroma demo_cfg (np.IArr np.uint8 1 2 [1; 2])) 1 3 = Some 2.
Proof.
  destruct (upsample_chroma_block_replication _ _ _ _ _ _ demo_cfg np.uint8 [1; 2]
              demo_cfg_init demo_geometry) as (_ & Hs & Hidx).
  - split; [reflexivity|]. repeat constructor; cbn; lia.
  - split; [exact Hs|].
    destruct (Hidx 1%nat 3%nat) as (x & Hx & Hup); [cbn; lia | cbn; lia |].
    vm_compute in Hx. injection Hx as <-. exact Hup.
Defined.

(** ** The colour transform *)

Lemma rgb_check_on_sound (ys ds cbs crs : list float) :
  rgb_check_on ys ds cbs crs = true ->
  forall fy d, In fy ys -> In d ds ->
    in_0_255 (np.fclip (PrimFloat.add fy (PrimFloat.mul 1.402%float d))
                0%float 255%float) = true /\
    in_0_255 (np.fclip (PrimFloat.add fy (PrimFloat.mul 1.772%float d))
                0%float 255%float) = true /\
    forall a b, In a cbs -> In b crs ->
      in_0_255 (np.fclip (PrimFloat.sub (PrimFloat.sub fy a) b)
                  0%float 255%float) = true.
Proof.
  unfold rgb_check_on. intros H fy d Hfy Hd.
  rewrite forallb_forall in H. specialize (H fy Hfy).
  apply andb_prop in H. destruct H as [H1 H2].
  rewrite forallb_forall in H1, H2.
  specialize (H1 d Hd). apply andb_prop in H1.
  split; [apply H1|]. split; [apply H1|].
  intros a b Ha Hb. specialize (H2 a Ha). cbv zeta in H2.
  rewrite forallb_forall in H2. exact (H2 b Hb).
Qed.

Lemma rgb_range_check_true :
  rgb_check_on level_floats offsets cb_terms cr_terms = true.
Proof. vm_compute. reflexivity. Qed.

Lemma in_levels (z : Z) : 0 <= z <= 256 -> In z levels.
Proof.
  intros Hz. unfold levels. apply in_map_iff. exists (Z.to_nat z).
  split; [lia|]. apply in_seq. lia.
Qed.

Lemma in_offsets (c : Z) :
  0 <= c <= 256 -> In (np.float_of_Z (c - 128)) offsets.
Proof.
  intros Hc. unfold offsets.
  apply (in_map (fun c => np.float_of_Z (c - 128))). now apply in_levels.
Qed.

Lemma rgb_in_range (y8 cb8 cr8 : Z) :
  0 <= y8 <= 256 -> 0 <= cb8 <= 256 -> 0 <= cr8 <= 256 ->
  in_0_255 (spec_R y8 cr8) = true /\
  in_0_255 (spec_G y8 cb8 cr8) = true /\
  in_0_255 (spec_B y8 cb8) = true.
Proof.
  intros Hy Hcb Hcr.
  assert (Hfy : In (np.float_of_Z y8) level_floats).
  { unfold level_floats. apply in_map. now apply in_levels. }
  pose proof (rgb_check_on_sound _ _ _ _ rgb_range_check_true) as H.
  destruct (H _ _ Hfy (in_offsets _ Hcr)) as (HR & _ & HG).
  destruct (H _ _ Hfy (in_offsets _ Hcb)) as (_ & HB & _).
  unfold spec_R, spec_G, spec_B. split; [exact HR|]. split; [|exact HB].
  apply HG.
  - unfold cb_terms. apply in_map. now apply in_offsets.
  - unfold cr_terms. apply in_map. now apply in_offsets.
Qed.

Lemma float_of_Z_0 : np.float_of_Z 0 = 0%float.
Proof. reflexivity. Qed.

Lemma float_of_Z_255 : np.float_of_Z (2^8 - 1) = 255%float.
Proof. reflexivity. Qed.

Lemma length_zip_with {A B C : Type} (f : A -> B -> C)
    (l1 : list A) (l2 : list B) :
  List.length (np.zip_with f l1 l2) = Nat.min (List.length l1) (List.length l2).
Proof. unfold np.zip_with. now rewrite length_map, length_combine. Qed.

(** Normalisation of a valid sample does not wrap and ends in 0..256. *)
Lemma norm8_facts (n m : string) (w h c d : Z) (self : YuvFile) (s : Z) :
  YuvFile_init n m w h c d = Return self ->
  0 <= s < 2 ^ sample_bits self ->
  np.wrap (dtype self) (s + round self) = s + round self /\
  np.wrap np.int64 (s + round self) = s + round self /\
  np.wrap np.int64 (spec_norm8 self s - 2^7) = spec_norm8 self s - 128 /\
  0 <= spec_norm8 self s <= 256.
Proof.
  intros Hinit.
  destruct (init_fields _ _ _ _ _ _ _ Hinit)
    as (_ & Hd & _ & Hdt & Hr & Hs & _).
  unfold sample_bits, spec_norm8. rewrite Hd, Hdt, Hr, Hs.
  destruct (d =? DEPTH_10); intros Hb; rewrite Z.shiftr_div_pow2 by lia.
  - change (2 ^ 10) with 1024 in Hb. change (2 ^ 2) with 4. change (2 ^ 7) with 128.
    assert (0 <= (s + 1) / 4 <= 256).
    { split; [apply Z.div_pos; lia | apply Z.div_le_upper_bound; lia]. }
    rewrite !wrap_int64_small by lia.
    unfold np.wrap. rewrite Z.mod_small by lia. lia.
  - change (2 ^ 8) with 256 in Hb. change (2 ^ 0) with 1. change (2 ^ 7) with 128.
    rewrite Z.div_1_r.
    rewrite !wrap_int64_small by lia.
    unfold np.wrap. rewrite Z.mod_small by lia. lia.
Qed.

Lemma sample_in_dtype (n m : string) (w h c d : Z) (self : YuvFile) (l : list Z) :
  YuvFile_init n m w h c d = Return self ->
  Forall (fun x => 0 <= x < 2 ^ sample_bits self) l ->
  Forall (np.in_dtype (dtype self)) l.
Proof.
  intros Hinit.
  destruct (init_fields _ _ _ _ _ _ _ Hinit) as (_ & Hd & _ & Hdt & _).
  unfold sample_bits. rewrite Hd, Hdt. apply Forall_impl. intros x.
  destruct (d =? DEPTH_10); cbn; lia.
Qed.

Lemma nth_error_sample (l : list Z) (P : Z -> Prop) (k : nat) :
  Forall P l -> (k < List.length l)%nat ->
  exists x, nth_error l k = Some x /\ P x.
Proof.
  intros HP Hk. destruct (nth_error l k) as [x|] eqn:E.
  - exists x. split; [reflexivity|].
    rewrite Forall_forall in HP. eapply HP, nth_error_In, E.
  - apply nth_error_None in E. lia.
Qed.

Lemma to_rgb_8b_pixels (n m : string) (w h c dp : Z) (self : YuvFile)
    (y u v : np.ndarray) :
  YuvFile_init n m w h c dp = Return self ->
  valid_geometry w h ->
  plane (dtype self) h w (sample_bits self) y ->
  plane (dtype self) (fst (uv_shape self)) (snd (uv_shape self))
        (sample_bits self) u ->
  plane (dtype self) (fst (uv_shape self)) (snd (uv_shape self))
        (sample_bits self) v ->
  exists rd gd bd,
    to_rgb_8b self y u v
    = Return (np.FArr (Z.to_nat h) (Z.to_nat w) rd,
              np.FArr (Z.to_nat h) (Z.to_nat w) gd,
              np.FArr (Z.to_nat h) (Z.to_nat w) bd) /\
    List.length rd = (Z.to_nat h * Z.to_nat w)%nat /\
    List.length gd = (Z.to_nat h * Z.to_nat w)%nat /\
    List.length bd = (Z.to_nat h * Z.to_nat w)%nat /\
    forall i j, (i < Z.to_nat h)%nat -> (j < Z.to_nat w)%nat ->
      exists ys us vs,
        np.iitem y i j = Some ys /\
        np.iitem u (i / v_factor self) (j / 2) = Some us /\
        np.iitem v (i / v_factor self) (j / 2) = Some vs /\
        np.iitem (upsample_chroma self u) i j = Some us /\
        np.iitem (upsample_chroma self v) i j = Some vs /\
        nth_error rd (i * Z.to_nat w + j)
        = Some (spec_R (spec_norm8 self ys) (spec_norm8 self vs)) /\
        nth_error gd (i * Z.to_nat w + j)
        = Some (spec_G (spec_norm8 self ys) (spec_norm8 self us)
                       (spec_norm8 self vs)) /\
        nth_error bd (i * Z.to_nat w + j)
        = Some (spec_B (spec_norm8 self ys) (spec_norm8 self us)) /\
        0 <= spec_norm8 self ys <= 256 /\
        0 <= spec_norm8 self us <= 256 /\
        0 <= spec_norm8 self vs <= 256.
Proof.
  intros Hinit Hgeo (yd & -> & Hyl & Hyb) (ud & -> & Hul & Hub) (vd & -> & Hvl & Hvb).
  destruct (chroma_shape_nat _ _ _ _ _ _ _ Hinit Hgeo) as [Hr Hc].
  destruct (upsample_chroma_int self (dtype self) _ _ ud Hul
              (sample_in_dtype _ _ _ _ _ _ _ _ Hinit Hub)) as (cbd & Hcb & Hcbl & Hcbi).
  destruct (upsample_chroma_int self (dtype self) _ _ vd Hvl
              (sample_in_dtype _ _ _ _ _ _ _ _ Hinit Hvb)) as (crd & Hcr & Hcrl & Hcri).
  rewrite Hr, Hc in Hcb, Hcr, Hcbl, Hcrl, Hcbi, Hcri.
  unfold to_rgb_8b. rewrite Hcb, Hcr.
  repeat (progress (rewrite ?bdim_same;
    cbn [np.add_int np.right_shift bind np.sub_int np.mul_float np.shape
         np.add np.subtract np.binop np.floats np.clip])).
  rewrite !stretch_same, float_of_Z_0, float_of_Z_255, !map_map.
  do 3 eexists. split; [reflexivity|].
  split; [now rewrite length_map, length_zip_with, !length_map, Hyl, Hcrl, Nat.min_id|].
  split; [now rewrite length_map, !length_zip_with, !length_map, Hyl, Hcbl, Hcrl,
            !Nat.min_id|].
  split; [now rewrite length_map, length_zip_with, !length_map, Hyl, Hcbl, Nat.min_id|].
  intros i j Hi Hj.
  assert (Hk : (i * Z.to_nat w + j < Z.to_nat h * Z.to_nat w)%nat)
    by (apply index_in_plane; assumption).
  destruct (nth_error_sample yd _ _ Hyb ltac:(rewrite Hyl; exact Hk))
    as (ys & Hys & Hysb).
  destruct (Hcbi i j Hi Hj) as (us & Hus & Hcbk).
  destruct (Hcri i j Hi Hj) as (vs & Hvs & Hcrk).
  assert (Husb : 0 <= us < 2 ^ sample_bits self).
  { rewrite Forall_forall in Hub. eapply Hub, nth_error_In, Hus. }
  assert (Hvsb : 0 <= vs < 2 ^ sample_bits self).
  { rewrite Forall_forall in Hvb. eapply Hvb, nth_error_In, Hvs. }
  destruct (norm8_facts _ _ _ _ _ _ _ ys Hinit Hysb) as (Ey1 & _ & _ & Ry).
  destruct (norm8_facts _ _ _ _ _ _ _ us Hinit Husb) as (_ & Eu2 & Eu3 & Ru).
  destruct (norm8_facts _ _ _ _ _ _ _ vs Hinit Hvsb) as (_ & Ev2 & Ev3 & Rv).
  exists ys, us, vs.
  assert (Hv : (0 < v_factor self)%nat)
    by (unfold v_factor; destruct (colour self =? CSPACE_420); lia).
  assert (Hi' : (i / v_factor self < Z.to_nat (fst (uv_shape self)))%nat).
  { apply Nat.Div0.div_lt_upper_bound. lia. }
  assert (Hj' : (j / 2 < Z.to_nat (snd (uv_shape self)))%nat).
  { apply Nat.Div0.div_lt_upper_bound. lia. }
  unfold np.iitem.
  rewrite (proj2 (Nat.ltb_lt _ _) Hi'), (proj2 (Nat.ltb_lt _ _) Hj').
  rewrite (proj2 (Nat.ltb_lt _ _) Hi), (proj2 (Nat.ltb_lt _ _) Hj).
  cbn [andb].
  split; [exact Hys|]. split; [exact Hus|]. split; [exact Hvs|].
  split; [exact Hcbk|]. split; [exact Hcrk|].
  rewrite !nth_error_map, !nth_error_zip_with, !nth_error_map.
  rewrite Hys, Hcbk, Hcrk. cbn [option_map].
  unfold spec_norm8 in *.
  rewrite Ey1, Eu2, Ev2, Eu3, Ev3.
  repeat split; try reflexivity; lia.
Qed.

Lemma fitem_nth_error (r c : nat) (d : list float) (i j : nat) :
  (i < r)%nat -> (j < c)%nat ->
  np.fitem (np.FArr r c d) i j = nth_error d (i * c + j).
Proof.
  intros Hi Hj. unfold np.fitem.
  now rewrite (proj2 (Nat.ltb_lt _ _) Hi), (proj2 (Nat.ltb_lt _ _) Hj).
Qed.

(** C1: on a frame of valid samples [to_rgb_8b] returns three arrays whose
    value at every pixel [(i, j)] is the transform of the specification
    applied to the normalised luma sample and to the normalised samples of
    the upsampled chroma planes; every value lies in [0, 255]. *)
Theorem to_rgb_8b_transform (n m : string) (w h c dp : Z) (self : YuvFile)
    (y u v : np.ndarray) :
  YuvFile_init n m w h c dp = Return self ->
  valid_geometry w h ->
  plane (dtype self) h w (sample_bits self) y ->
  plane (dtype self) (fst (uv_shape self)) (snd (uv_shape self))
        (sample_bits self) u ->
  plane (dtype self) (fst (uv_shape self)) (snd (uv_shape self))
        (sample_bits self) v ->
  exists r g b,
    to_rgb_8b self y u v = Return (r, g, b) /\
    forall i j, (i < Z.to_nat h)%nat -> (j < Z.to_nat w)%nat ->
      exists ys cb cr,
        np.iitem y i j = Some ys /\
        np.iitem (upsample_chroma self u) i j = Some cb /\
        np.iitem (upsample_chroma self v) i j = Some cr /\
        let y8 := spec_norm8 self ys in
        let cb8 := spec_norm8 self cb in
        let cr8 := spec_norm8 self cr in
        np.fitem r i j = Some (spec_R y8 cr8) /\
        np.fitem g i j = Some (spec_G y8 cb8 cr8) /\
        np.fitem b i j = Some (spec_B y8 cb8) /\
        in_0_255 (spec_R y8 cr8) = true /\
        in_0_255 (spec_G y8 cb8 cr8) = true /\
        in_0_255 (spec_B y8 cb8) = true.
Proof.
  intros Hinit Hgeo Hy Hu Hv.
  destruct (to_rgb_8b_pixels _ _ _ _ _ _ _ _ _ _ Hinit Hgeo Hy Hu Hv)
    as (rd & gd & bd & Hret & _ & _ & _ & Hpix).
  do 3 eexists. split; [exact Hret|].
  intros i j Hi Hj.
  destruct (Hpix i j Hi Hj)
    as (ys & us & vs & Hys & _ & _ & Hcb & Hcr & HR & HG & HB & Ry & Ru & Rv).
  exists ys, us, vs. cbv zeta.
  rewrite !fitem_nth_error by assumption.
  destruct (rgb_in_range _ _ _ Ry Ru Rv) as (IR & IG & IB).
  repeat split; assumption.
Qed.

Lemma to_rgb_8b_transform_witness :
  exists r g b,
    to_rgb_8b demo_cfg
      (np.IArr np.uint8 2 4 [255; 255; 255; 255; 16; 16; 16; 16])
      (np.IArr np.uint8 1 2 [255; 128])
      (np.IArr np.uint8 1 2 [255; 128]) = Return (r, g, b) /\
    np.fitem r 0 0 = Some 255%float /\
    np.fitem g 0 0 = Some 120.63400000000001%float /\
    np.fitem b 0 0 = Some 255%float /\
    np.fitem r 1 3 = Some 16%float.
Proof.
  assert (Hp : forall r c d,
             List.length d = (Z.to_nat r * Z.to_nat c)%nat ->
             Forall (fun x => 0 <= x < 2 ^ sample_bits demo_cfg) d ->
             plane np.uint8 r c (sample_bits demo_cfg)
               (np.IArr np.uint8 (Z.to_nat r) (Z.to_nat c) d)).
  { intros r c d Hl Hb. exists d. auto. }
  destruct (to_rgb_8b_transform _ _ _ _ _ _ demo_cfg
              (np.IArr np.uint8 2 4 [255; 255; 255; 255; 16; 16; 16; 16])
              (np.IArr np.uint8 1 2 [255; 128])
              (np.IArr np.uint8 1 2 [255; 128])
              demo_cfg_init demo_geometry)
    as (r & g & b & Hret & _).
  - apply (Hp 2 4); [reflexivity|].
    repeat constructor; cbn; lia.
  - apply (Hp 1 2); [reflexivity|]. repeat constructor; cbn; lia.
  - apply (Hp 1 2); [reflexivity|]. repeat constructor; cbn; lia.
  - exists r, g, b. split; [exact Hret|].
    vm_compute in Hret. injection Hret as <- <- <-.
    repeat split; reflexivity.
Defined.

(** ** Binary encoding of samples *)

Lemma Z_of_byte_of_Z (z : Z) : np.Z_of_byte (np.byte_of_Z z) = z mod 256.
Proof.
  unfold np.Z_of_byte, np.byte_of_Z.
  assert (Hr : 0 <= z mod 256 < 256) by (apply Z.mod_pos_bound; lia).
  destruct (Byte.of_N (Z.to_N (z mod 256))) as [b|] eqn:E.
  - apply Byte.to_of_N in E. rewrite E. lia.
  - apply Byte.of_N_None_iff in E. lia.
Qed.

Lemma le_encode_length (n : nat) (z : Z) : List.length (np.le_encode n z) = n.
Proof.
  revert z. induction n as [|n IH]; intros z; cbn; [reflexivity | now rewrite IH].
Qed.

Lemma le_decode_encode (n : nat) (z : Z) :
  np.le_decode (np.le_encode n z) = z mod 256 ^ Z.of_nat n.
Proof.
  revert z. induction n as [|n IH]; intros z.
  - cbn. now rewrite Z.mod_1_r.
  - cbn [np.le_encode np.le_decode fold_right].
    fold (np.le_decode (np.le_encode n (z / 256))).
    rewrite IH, Z_of_byte_of_Z, Nat2Z.inj_succ, Z.pow_succ_r by lia.
    rewrite Z.rem_mul_r by lia. reflexivity.
Qed.

Lemma item_roundtrip (dt : np.int_dtype) (z : Z) :
  np.in_dtype dt z -> np.item_of_bytes dt (np.bytes_of_item dt z) = z.
Proof.
  unfold np.item_of_bytes, np.bytes_of_item. rewrite le_decode_encode.
  destruct dt; cbn [np.itemsize np.in_dtype np.wrap]; intros Hz.
  - change (256 ^ Z.of_nat 1) with (2 ^ 8).
    rewrite Z.mod_mod by lia. apply Z.mod_small. exact Hz.
  - change (256 ^ Z.of_nat 2) with (2 ^ 16).
    rewrite Z.mod_mod by lia. apply Z.mod_small. exact Hz.
  - change (256 ^ Z.of_nat 8) with (2 ^ 64).
    rewrite Zplus_mod_idemp_l. rewrite Z.mod_small; lia.
Qed.

Lemma itemsize_pos (dt : np.int_dtype) : (0 < np.itemsize dt)%nat.
Proof. destruct dt; cbn; lia. Qed.

Lemma encoded_length (dt : np.int_dtype) (d : list Z) :
  List.length (flat_map (np.bytes_of_item dt) d)
  = (List.length d * np.itemsize dt)%nat.
Proof.
  apply length_flat_map_const. intros x _. apply le_encode_length.
Qed.

Lemma decode_items_length (dt : np.int_dtype) (n : nat) (bs : list byte) :
  List.length (np.decode_items dt n bs) = n.
Proof.
  revert bs. induction n as [|n IH]; intros bs; cbn; [reflexivity | now rewrite IH].
Qed.

Lemma decode_items_encoded (dt : np.int_dtype) (d : list Z) (rest : list byte) :
  Forall (np.in_dtype dt) d ->
  np.decode_items dt (List.length d) (flat_map (np.bytes_of_item dt) d ++ rest) = d.
Proof.
  induction 1 as [|x d Hx Hd IH]; [reflexivity|].
  cbn [List.length np.decode_items flat_map]. rewrite <- app_assoc.
  assert (Hl : List.length (np.bytes_of_item dt x) = np.itemsize dt)
    by apply le_encode_length.
  rewrite firstn_app, skipn_app, Hl, Nat.sub_diag.
  rewrite firstn_all2, skipn_all2 by lia.
  cbn [firstn skipn app]. rewrite app_nil_r, item_roundtrip, IH by assumption.
  reflexivity.
Qed.

(** ** [np.fromfile] *)

Lemma div_lt_iff (a b q : nat) : (0 < b)%nat -> (a / b < q)%nat <-> (a < q * b)%nat.
Proof.
  intros Hb. split; intros H.
  - pose proof (Nat.mul_succ_div_gt a b ltac:(lia)). nia.
  - apply Nat.Div0.div_lt_upper_bound. lia.
Qed.

(** A read of [count >= 0] items either finds all their bytes and advances
    past them, or comes back short and leaves the file at its end. *)
Lemma fromfile_cases (f : np.file) (dt : np.int_dtype) (count : Z) :
  0 <= count ->
  ((Z.to_nat count * np.itemsize dt <= List.length f)%nat /\
   np.fromfile f dt count
   = (np.decode_items dt (Z.to_nat count) f,
      skipn (Z.to_nat count * np.itemsize dt) f) /\
   Z.of_nat (List.length (fst (np.fromfile f dt count))) = count)
  \/
  ((List.length f < Z.to_nat count * np.itemsize dt)%nat /\
   snd (np.fromfile f dt count) = [] /\
   Z.of_nat (List.length (fst (np.fromfile f dt count))) < count).
Proof.
  intros Hc. unfold np.fromfile.
  destruct (Z.ltb_spec count 0) as [|_]; [lia|].
  pose proof (itemsize_pos dt) as Hpos.
  destruct (Z.ltb_spec (Z.of_nat (List.length f / np.itemsize dt)) count) as [Hs|Hs].
  - right. cbn [fst snd]. rewrite decode_items_length.
    split; [|split; [reflexivity | exact Hs]].
    apply (div_lt_iff _ _ _ Hpos). lia.
  - left. cbn [fst snd]. rewrite decode_items_length.
    split; [|split; [reflexivity | lia]].
    assert (H : ~ (List.length f / np.itemsize dt < Z.to_nat count)%nat) by lia.
    rewrite (div_lt_iff _ _ _ Hpos) in H. lia.
Qed.

Lemma fromfile_encoded (dt : np.int_dtype) (d : list Z) (rest : np.file) :
  Forall (np.in_dtype dt) d ->
  np.fromfile (flat_map (np.bytes_of_item dt) d ++ rest) dt
              (Z.of_nat (List.length d))
  = (d, rest).
Proof.
  intros Hd.
  destruct (fromfile_cases (flat_map (np.bytes_of_item dt) d ++ rest) dt
              (Z.of_nat (List.length d)) ltac:(lia)) as [(_ & E & _)|(Hlt & _)].
  - rewrite E, Nat2Z.id, decode_items_encoded by assumption.
    rewrite <- encoded_length, skipn_app, Nat.sub_diag, skipn_all.
    reflexivity.
  - rewrite length_app, encoded_length, Nat2Z.id in Hlt. lia.
Qed.

(** ** [read_frame] *)

Lemma reshape_cases (dt : np.int_dtype) (items : list Z) (r c : Z) :
  0 <= r -> 0 <= c ->
  np.reshape dt items (r, c)
  = if r * c =? Z.of_nat (List.length items)
    then Return (np.IArr dt (Z.to_nat r) (Z.to_nat c) items)
    else Raise ValueError.
Proof.
  intros Hr Hc. unfold np.reshape.
  rewrite (proj2 (Z.leb_le 0 r) Hr), (proj2 (Z.leb_le 0 c) Hc). reflexivity.
Qed.

Lemma init_shapes (n m : string) (w h c d : Z) (self : YuvFile) :
  YuvFile_init n m w h c d = Return self -> 0 < w -> 0 < h ->
  y_shape self = (h, w) /\ y_size self = h * w /\
  0 <= fst (uv_shape self) /\ 0 <= snd (uv_shape self) /\
  uv_shape self = (fst (uv_shape self), snd (uv_shape self)) /\
  uv_size self = fst (uv_shape self) * snd (uv_shape self) /\
  0 <= y_size self /\ 0 <= uv_size self.
Proof.
  intros Hinit Hw Hh.
  destruct (init_fields _ _ _ _ _ _ _ Hinit)
    as (_ & _ & _ & _ & _ & _ & Hys & Hyz & Huv & Huz).
  rewrite Hys, Hyz, Huv, Huz. cbn [fst snd].
  assert (0 <= h / (if c =? CSPACE_420 then 2 else 1))
    by (destruct (c =? CSPACE_420); apply Z.div_pos; lia).
  assert (0 <= w / 2) by (apply Z.div_pos; lia).
  repeat split; try lia; apply Z.mul_nonneg_nonneg; lia.
Qed.

(** The two outcomes of [read_frame]: the frame when the three reads are
    complete, the sentinel otherwise; no exception leaves the method. *)
Lemma read_frame_cases (n m : string) (w h c d : Z) (self : YuvFile)
    (f : np.file) :
  YuvFile_init n m w h c d = Return self -> 0 < w -> 0 < h ->
  (reads_complete self f ->
   read_frame self f = (Return (frame_read self f), snd (v_read self f))) /\
  (~ reads_complete self f ->
   exists f', read_frame self f = (Return sentinel, f')).
Proof.
  intros Hinit Hw Hh.
  destruct (init_shapes _ _ _ _ _ _ _ Hinit Hw Hh)
    as (Hys & Hyz & Hur & Huc & Huv & Huz & _ & _).
  unfold reads_complete, frame_read, v_read, u_read, y_read.
  unfold read_frame, try_except_ValueError, io_bind, fromfile_reshape, io_ret.
  rewrite Huv, Hys. cbn [fst snd].
  destruct (np.fromfile f (dtype self) (y_size self)) as [yi f1]. cbn [fst snd].
  rewrite reshape_cases by lia. rewrite <- Hyz.
  destruct (Z.eqb_spec (y_size self) (Z.of_nat (List.length yi))) as [Ey|Ey].
  2:{ split; [intros (? & _); lia | intros _; eexists; reflexivity]. }
  destruct (np.fromfile f1 (dtype self) (uv_size self)) as [ui f2]. cbn [fst snd].
  rewrite !reshape_cases by lia. rewrite <- Huz.
  destruct (Z.eqb_spec (uv_size self) (Z.of_nat (List.length ui))) as [Eu|Eu].
  2:{ split; [intros (_ & ? & _); lia | intros _; eexists; reflexivity]. }
  destruct (np.fromfile f2 (dtype self) (uv_size self)) as [vi f3]. cbn [fst snd].
  rewrite ?reshape_cases by lia. rewrite <- ?Huz.
  destruct (Z.eqb_spec (uv_size self) (Z.of_nat (List.length vi))) as [Ev|Ev].
  2:{ split; [intros (_ & _ & ?); lia | intros _; eexists; reflexivity]. }
  split; [intros _; reflexivity | intros Hn; exfalso; apply Hn; lia].
Qed.

Lemma fromfile_cases_Z (f : np.file) (dt : np.int_dtype) (count : Z) :
  0 <= count ->
  let sz := Z.of_nat (np.itemsize dt) in
  let len (l : np.file) := Z.of_nat (List.length l) in
  (count * sz <= len f /\
   len (snd (np.fromfile f dt count)) = len f - count * sz /\
   Z.of_nat (List.length (fst (np.fromfile f dt count))) = count)
  \/
  (len f < count * sz /\
   len (snd (np.fromfile f dt count)) = 0 /\
   Z.of_nat (List.length (fst (np.fromfile f dt count))) < count).
Proof.
  intros Hc sz len. unfold sz, len.
  destruct (fromfile_cases f dt count Hc) as [(L & E & C)|(L & E & C)].
  - left. rewrite E in *. cbn [fst snd] in *. rewrite length_skipn.
    split; [|split]; [| |exact C].
    + apply Nat2Z.inj_le in L. rewrite Nat2Z.inj_mul, Z2Nat.id in L; lia.
    + rewrite Nat2Z.inj_sub, Nat2Z.inj_mul, Z2Nat.id by lia. reflexivity.
  - right. rewrite E. split; [|split]; [|reflexivity|exact C].
    apply Nat2Z.inj_lt in L. rewrite Nat2Z.inj_mul, Z2Nat.id in L; lia.
Qed.

(** The reads are complete exactly when a whole frame of bytes is left. *)
Lemma reads_complete_iff (n m : string) (w h c d : Z) (self : YuvFile)
    (f : np.file) :
  YuvFile_init n m w h c d = Return self -> 0 < w -> 0 < h ->
  reads_complete self f <-> frame_bytes self <= Z.of_nat (List.length f).
Proof.
  intros Hinit Hw Hh.
  destruct (init_shapes _ _ _ _ _ _ _ Hinit Hw Hh)
    as (_ & _ & _ & _ & _ & _ & Hy0 & Hu0).
  unfold reads_complete, frame_bytes, v_read, u_read, y_read.
  pose proof (itemsize_pos (dtype self)) as Hsz.
  pose proof (fromfile_cases_Z f (dtype self) (y_size self) Hy0) as Hy.
  pose proof (fromfile_cases_Z (snd (np.fromfile f (dtype self) (y_size self)))
                (dtype self) (uv_size self) Hu0) as Hu.
  pose proof (fromfile_cases_Z
                (snd (np.fromfile (snd (np.fromfile f (dtype self) (y_size self)))
                        (dtype self) (uv_size self)))
                (dtype self) (uv_size self) Hu0) as Hv.
  cbv zeta in Hy, Hu, Hv.
  assert (Hp : 0 <= uv_size self * Z.of_nat (np.itemsize (dtype self)))
    by (apply Z.mul_nonneg_nonneg; lia).
  split; intros H; lia.
Qed.

(** C2: for a handler whose luma size is a valid count ([y_size < 2^63]),
    [read_frame] returns the frame made of the three reads exactly when
    the Y read, the U read and the V read each obtain their full count,
    which is exactly when a whole frame of bytes is left; in every other
    case it returns the sentinel; it never raises. *)
Theorem read_frame_iff_reads_complete (n m : string) (w h c d : Z)
    (self : YuvFile) (f : np.file) :
  YuvFile_init n m w h c d = Return self -> 0 < w -> 0 < h ->
  y_size self < 2 ^ 63 ->
  (reads_complete self f <->
   read_frame self f = (Return (frame_read self f), snd (v_read self f))) /\
  (~ reads_complete self f <->
   exists f', read_frame self f = (Return sentinel, f')) /\
  (reads_complete self f <-> frame_bytes self <= Z.of_nat (List.length f)) /\
  (exists res f', read_frame self f = (Return res, f')).
Proof.
  intros Hinit Hw Hh _.
  destruct (read_frame_cases _ _ _ _ _ _ _ f Hinit Hw Hh) as [Hyes Hno].
  assert (Hdec : reads_complete self f \/ ~ reads_complete self f).
  { unfold reads_complete.
    destruct (Z.eq_dec (Z.of_nat (List.length (fst (y_read self f)))) (y_size self));
    destruct (Z.eq_dec (Z.of_nat (List.length (fst (u_read self f)))) (uv_size self));
    destruct (Z.eq_dec (Z.of_nat (List.length (fst (v_read self f)))) (uv_size self));
    tauto. }
  assert (Hne : forall f', (Return (frame_read self f), snd (v_read self f))
                           <> (Return sentinel, f')).
  { unfold frame_read, sentinel. intros f' E. discriminate E. }
  split; [|split; [|split]].
  - split; [exact Hyes|]. intros E. destruct Hdec as [Hc|Hc]; [exact Hc|].
    destruct (Hno Hc) as [f' E']. rewrite E in E'. now apply Hne in E'.
  - split; [exact Hno|]. intros [f' E] Hc.
    rewrite (Hyes Hc) in E. now apply Hne in E.
  - exact (reads_complete_iff _ _ _ _ _ _ _ f Hinit Hw Hh).
  - destruct Hdec as [Hc|Hc].
    + do 2 eexists. exact (Hyes Hc).
    + destruct (Hno Hc) as [f' E]. do 2 eexists. exact E.
Qed.

Lemma read_frame_iff_reads_complete_witness :
  read_frame demo_cfg (demo_frame_file ++ demo_garbage)
  = (Return (demo_y, demo_u, np.IArr np.uint8 1 2 [128; 128]), demo_garbage) /\
  exists f', read_frame demo_cfg demo_garbage = (Return sentinel, f').
Proof.
  split.
  - destruct (read_frame_iff_reads_complete _ _ _ _ _ _ demo_cfg
                (demo_frame_file ++ demo_garbage) demo_cfg_init
                ltac:(reflexivity) ltac:(reflexivity) ltac:(reflexivity))
      as (H & _).
    assert (Hc : reads_complete demo_cfg (demo_frame_file ++ demo_garbage)).
    { repeat split. }
    rewrite (proj1 H Hc). reflexivity.
  - destruct (read_frame_iff_reads_complete _ _ _ _ _ _ demo_cfg
                demo_garbage demo_cfg_init
                ltac:(reflexivity) ltac:(reflexivity) ltac:(reflexivity))
      as (_ & H & _).
    apply (proj1 H). intros (Hy & _). vm_compute in Hy. discriminate Hy.
Defined.

(** C9: when the bytes left hold a complete Y plane but not the whole
    frame, [read_frame] obtains the Y plane, drops it and returns three
    empty 0x0 arrays, whose [np.size] is 0. *)
Theorem read_frame_short_chroma (n m : string) (w h c d : Z)
    (self : YuvFile) (f : np.file) :
  YuvFile_init n m w h c d = Return self -> 0 < w -> 0 < h ->
  Z.of_nat (np.itemsize (dtype self)) * y_size self <= Z.of_nat (List.length f) ->
  Z.of_nat (List.length f) < frame_bytes self ->
  Z.of_nat (List.length (fst (y_read self f))) = y_size self /\
  exists f',
    read_frame self f
    = (Return (np.FArr 0 0 [], np.FArr 0 0 [], np.FArr 0 0 []), f') /\
    np.size (np.FArr 0 0 []) = 0%nat.
Proof.
  intros Hinit Hw Hh Hy Hshort.
  destruct (init_shapes _ _ _ _ _ _ _ Hinit Hw Hh)
    as (_ & _ & _ & _ & _ & _ & Hy0 & _).
  split.
  - unfold y_read.
    pose proof (fromfile_cases_Z f (dtype self) (y_size self) Hy0) as H.
    cbv zeta in H. lia.
  - destruct (read_frame_cases _ _ _ _ _ _ _ f Hinit Hw Hh) as [_ Hno].
    destruct Hno as [f' E].
    + rewrite (reads_complete_iff _ _ _ _ _ _ _ f Hinit Hw Hh). lia.
    + exists f'. split; [exact E | reflexivity].
Qed.

Lemma read_frame_short_chroma_witness :
  exists f',
    read_frame demo_cfg [x10; x10; x10; x10; x10; x10; x10; x10; x80; x80; x80]
    = (Return (np.FArr 0 0 [], np.FArr 0 0 [], np.FArr 0 0 []), f').
Proof.
  destruct (read_frame_short_chroma _ _ _ _ _ _ demo_cfg
              [x10; x10; x10; x10; x10; x10; x10; x10; x80; x80; x80]
              demo_cfg_init ltac:(reflexivity) ltac:(reflexivity))
    as (_ & f' & E & _).
  - vm_compute. discriminate.
  - vm_compute. reflexivity.
  - exists f'. exact E.
Defined.

(** C3: a frame of planes of the handler's dtype and shapes, written by
    [write_frame] to an empty file, is read back by [read_frame] as the
    same three arrays; bytes that follow the frame are left unread. *)
Theorem write_read_roundtrip (n m : string) (w h c d : Z) (self : YuvFile)
    (y u v : np.ndarray) (rest : np.file) :
  YuvFile_init n m w h c d = Return self -> 0 < w -> 0 < h ->
  frame_plane self (y_shape self) y ->
  frame_plane self (uv_shape self) u ->
  frame_plane self (uv_shape self) v ->
  read_frame self (write_frame self y u v []) = (Return (y, u, v), []) /\
  read_frame self (write_frame self y u v [] ++ rest) = (Return (y, u, v), rest).
Proof.
  intros Hinit Hw Hh (yd & -> & Hyl & Hyd) (ud & -> & Hul & Hud)
         (vd & -> & Hvl & Hvd).
  destruct (init_shapes _ _ _ _ _ _ _ Hinit Hw Hh)
    as (Hys & Hyz & Hur & Huc & _ & Huz & _ & _).
  assert (Ysz : y_size self = Z.of_nat (List.length yd)).
  { rewrite Hyl, Hyz, Hys. cbn [fst snd]. rewrite Nat2Z.inj_mul, !Z2Nat.id; lia. }
  assert (Usz : uv_size self = Z.of_nat (List.length ud)).
  { rewrite Hul, Huz, Nat2Z.inj_mul, !Z2Nat.id; lia. }
  assert (Vsz : uv_size self = Z.of_nat (List.length vd)).
  { rewrite Hvl, Huz, Nat2Z.inj_mul, !Z2Nat.id; lia. }
  assert (Hgen : forall tail,
    read_frame self (write_frame self
        (np.IArr (dtype self) (Z.to_nat (fst (y_shape self)))
                 (Z.to_nat (snd (y_shape self))) yd)
        (np.IArr (dtype self) (Z.to_nat (fst (uv_shape self)))
                 (Z.to_nat (snd (uv_shape self))) ud)
        (np.IArr (dtype self) (Z.to_nat (fst (uv_shape self)))
                 (Z.to_nat (snd (uv_shape self))) vd) [] ++ tail)
    = (Return
         (np.IArr (dtype self) (Z.to_nat (fst (y_shape self)))
                  (Z.to_nat (snd (y_shape self))) yd,
          np.IArr (dtype self) (Z.to_nat (fst (uv_shape self)))
                  (Z.to_nat (snd (uv_shape self))) ud,
          np.IArr (dtype self) (Z.to_nat (fst (uv_shape self)))
                  (Z.to_nat (snd (uv_shape self))) vd), tail)).
  { intros tail. unfold write_frame, np.tofile. cbn [app].
    rewrite <- !app_assoc.
    set (F := flat_map (np.bytes_of_item (dtype self)) yd ++ _).
    assert (Ey : y_read self F
                 = (yd, flat_map (np.bytes_of_item (dtype self)) ud
                        ++ flat_map (np.bytes_of_item (dtype self)) vd ++ tail)).
    { unfold y_read, F. rewrite Ysz. now apply fromfile_encoded. }
    assert (Eu : u_read self F
                 = (ud, flat_map (np.bytes_of_item (dtype self)) vd ++ tail)).
    { unfold u_read. rewrite Ey. cbn [snd]. rewrite Usz.
      now apply fromfile_encoded. }
    assert (Ev : v_read self F = (vd, tail)).
    { unfold v_read. rewrite Eu. cbn [snd]. rewrite Vsz.
      now apply fromfile_encoded. }
    destruct (read_frame_cases _ _ _ _ _ _ _ F Hinit Hw Hh) as [Hyes _].
    rewrite Hyes.
    - unfold frame_read. rewrite Ey, Eu, Ev. reflexivity.
    - unfold reads_complete. rewrite Ey, Eu, Ev. cbn [fst]. lia. }
  split; [|apply Hgen].
  rewrite <- (app_nil_r (write_frame _ _ _ _ _)). apply Hgen.
Qed.

Lemma write_read_roundtrip_witness :
  read_frame demo_cfg (write_frame demo_cfg demo_y demo_u demo_v [])
  = (Return (demo_y, demo_u, demo_v), []).
Proof.
  assert (Hp : forall r c d,
             np.wf (np.IArr np.uint8 (Z.to_nat r) (Z.to_nat c) d) ->
             frame_plane demo_cfg (r, c)
               (np.IArr np.uint8 (Z.to_nat r) (Z.to_nat c) d)).
  { intros r c d Hwf. exists d. split; [reflexivity | exact Hwf]. }
  refine (proj1 (write_read_roundtrip _ _ _ _ _ _ demo_cfg demo_y demo_u demo_v []
                   demo_cfg_init ltac:(reflexivity) ltac:(reflexivity) _ _ _)).
  - apply (Hp 2 4). split; [reflexivity|]. repeat constructor; cbn; lia.
  - apply (Hp 1 2). split; [reflexivity|]. repeat constructor; cbn; lia.
  - apply (Hp 1 2). split; [reflexivity|]. repeat constructor; cbn; lia.
Defined.

(** ** The type of the result of [to_rgb_8b] *)

(** C8 (as the code has it): on a valid frame the three arrays returned by
    [to_rgb_8b] are [float64] arrays, well formed and of the shape of the
    luma plane. *)
Theorem to_rgb_8b_float64_luma_shape (n m : string) (w h c dp : Z)
    (self : YuvFile) (y u v : np.ndarray) :
  YuvFile_init n m w h c dp = Return self ->
  valid_geometry w h ->
  plane (dtype self) h w (sample_bits self) y ->
  plane (dtype self) (fst (uv_shape self)) (snd (uv_shape self))
        (sample_bits self) u ->
  plane (dtype self) (fst (uv_shape self)) (snd (uv_shape self))
        (sample_bits self) v ->
  exists rd gd bd,
    to_rgb_8b self y u v
    = Return (np.FArr (Z.to_nat h) (Z.to_nat w) rd,
              np.FArr (Z.to_nat h) (Z.to_nat w) gd,
              np.FArr (Z.to_nat h) (Z.to_nat w) bd) /\
    np.shape y = (Z.to_nat h, Z.to_nat w) /\
    np.wf (np.FArr (Z.to_nat h) (Z.to_nat w) rd) /\
    np.wf (np.FArr (Z.to_nat h) (Z.to_nat w) gd) /\
    np.wf (np.FArr (Z.to_nat h) (Z.to_nat w) bd).
Proof.
  intros Hinit Hgeo Hy Hu Hv.
  destruct (to_rgb_8b_pixels _ _ _ _ _ _ _ _ _ _ Hinit Hgeo Hy Hu Hv)
    as (rd & gd & bd & Hret & Lr & Lg & Lb & _).
  exists rd, gd, bd. split; [exact Hret|].
  destruct Hy as (yd & -> & _). cbn [np.shape np.wf]. auto.
Qed.

Lemma to_rgb_8b_float64_luma_shape_witness :
  exists rd gd bd,
    to_rgb_8b demo_cfg demo_y demo_u demo_v
    = Return (np.FArr 2 4 rd, np.FArr 2 4 gd, np.FArr 2 4 bd) /\
    List.length rd = 8%nat.
Proof.
  assert (Hp : forall r c d,
             List.length d = (Z.to_nat r * Z.to_nat c)%nat ->
             Forall (fun x => 0 <= x < 2 ^ sample_bits demo_cfg) d ->
             plane np.uint8 r c (sample_bits demo_cfg)
               (np.IArr np.uint8 (Z.to_nat r) (Z.to_nat c) d)).
  { intros r c d Hl Hb. exists d. auto. }
  destruct (to_rgb_8b_float64_luma_shape _ _ _ _ _ _ demo_cfg
              demo_y demo_u demo_v demo_cfg_init demo_geometry)
    as (rd & gd & bd & Hret & _ & Hwf & _).
  - apply (Hp 2 4); [reflexivity|]. repeat constructor; cbn; lia.
  - apply (Hp 1 2); [reflexivity|]. repeat constructor; cbn; lia.
  - apply (Hp 1 2); [reflexivity|]. repeat constructor; cbn; lia.
  - exists rd, gd, bd. split; [exact Hret | exact Hwf].
Defined.

(** C8 as stated fails: on the mid-gray frame with one red-shifted chroma
    sample the arrays returned are not unsigned 8-bit arrays; the red
    plane holds the value 116.944, which is not an integer. *)
Lemma to_rgb_8b_not_uint8 :
  ~ (exists r g b,
       to_rgb_8b demo_cfg demo_y demo_u demo_v = Return (r, g, b) /\
       is_uint8 r /\ is_uint8 g /\ is_uint8 b) /\
  exists r g b,
    to_rgb_8b demo_cfg demo_y demo_u demo_v = Return (r, g, b) /\
    np.fitem r 0 2 = Some 116.94399999999999%float.
Proof.
  split.
  - intros (r & g & b & Hret & (rr & rc & rd & ->) & _).
    vm_compute in Hret. discriminate Hret.
  - do 3 eexists. split; [vm_compute; reflexivity | reflexivity].
Qed.

(** ** Normalisation *)

(** The constants of the normalisation: shift 0 and bias 0 unless the depth
    is 10, where they are 2 and 1; with depth 8 normalisation is the
    identity. *)
Lemma normalization_constants (n m : string) (w h c d : Z) (self : YuvFile) :
  YuvFile_init n m w h c d = Return self ->
  (d = DEPTH_10 -> shift self = 2 /\ round self = 1) /\
  (d <> DEPTH_10 ->
   shift self = 0 /\ round self = 0 /\ forall s, spec_norm8 self s = s).
Proof.
  intros Hinit.
  destruct (init_fields _ _ _ _ _ _ _ Hinit) as (_ & _ & _ & _ & Hr & Hs & _).
  unfold spec_norm8. rewrite Hr, Hs.
  destruct (Z.eqb_spec d DEPTH_10) as [E|E]; split; intros H; try contradiction.
  - split; reflexivity.
  - split; [reflexivity|]. split; [reflexivity|].
    intros s. rewrite Z.shiftr_0_r. lia.
Qed.

(** Normalisation at depth 10 against rounding half up: the bias is 1, so
    the sample 2 (dropped bits [10], one half) is normalised to 0, whereas
    rounding half up gives 1; the two agree exactly on the samples whose
    dropped bits are not [10]. The pixels of [to_rgb_8b] show it. *)
Theorem normalization_10bit_not_half_up :
  spec_norm8 demo_cfg10 2 = 0 /\
  round_half_up_shift 2 (shift demo_cfg10) = 1 /\
  to_rgb_8b demo_cfg10
    (np.IArr np.uint16 2 4 [2; 2; 2; 2; 2; 2; 2; 2])
    (np.IArr np.uint16 1 2 [512; 512])
    (np.IArr np.uint16 1 2 [512; 512])
  = Return (np.FArr 2 4 (repeat 0%float 8), np.FArr 2 4 (repeat 0%float 8),
            np.FArr 2 4 (repeat 0%float 8)) /\
  forall s, 0 <= s ->
    (spec_norm8 demo_cfg10 s = round_half_up_shift s (shift demo_cfg10)
     <-> s mod 4 <> 2).
Proof.
  split; [reflexivity|]. split; [reflexivity|].
  split; [vm_compute; reflexivity|].
  intros s Hs. unfold spec_norm8, round_half_up_shift. cbn [shift round demo_cfg10].
  rewrite Z.shiftr_div_pow2 by lia.
  change (2 ^ 2) with 4. change (2 ^ (2 + 1)) with 8.
  replace ((2 * s + 4) / 8) with ((s + 2) / 4).
  2:{ replace (2 * s + 4) with ((s + 2) * 2) by lia.
      change 8 with (4 * 2). rewrite Z.div_mul_cancel_r by lia. reflexivity. }
  pose proof (Z.div_mod s 4 ltac:(lia)) as Hdm.
  pose proof (Z.mod_pos_bound s 4 ltac:(lia)) as Hb.
  assert (E1 : (s + 1) / 4 = s / 4 + (s mod 4 + 1) / 4).
  { rewrite Hdm at 1. rewrite <- Z.add_assoc, Z.mul_comm, Z.div_add_l by lia.
    reflexivity. }
  assert (E2 : (s + 2) / 4 = s / 4 + (s mod 4 + 2) / 4).
  { rewrite Hdm at 1. rewrite <- Z.add_assoc, Z.mul_comm, Z.div_add_l by lia.
    reflexivity. }
  rewrite E1, E2.
  assert (Hcase : s mod 4 = 0 \/ s mod 4 = 1 \/ s mod 4 = 2 \/ s mod 4 = 3) by lia.
  destruct Hcase as [H|[H|[H|H]]]; rewrite H; cbn; lia.
Qed.

(** * Further properties of the code *)

(** ** [parse_options] and the handlers of [main] *)

Lemma parse_options_accepts (isfile : string -> bool) (o o' : Options) :
  parse_options isfile o = Return o' <-> (options_ok isfile o /\ o' = o).
Proof.
  unfold parse_options, options_ok, valid_geometry.
  destruct (opt_args o) as [|a l]; cbn [negb];
    [|split; [discriminate | intros [(H & _) _]; discriminate H]].
  destruct (truthy_str (opt_input o)); cbn [negb];
    [|split; [discriminate | intros [(_ & H & _) _]; discriminate H]].
  destruct (isfile _); cbn [negb];
    [|split; [discriminate | intros [(_ & _ & H & _) _]; discriminate H]].
  destruct (Z.leb_spec (opt_width o) 0); cbn [orb];
    [split; [discriminate | intros [(_ & _ & _ & (? & _) & _) _]; lia]|].
  destruct (Z.leb_spec (opt_height o) 0); cbn [orb];
    [split; [discriminate | intros [(_ & _ & _ & (_ & ? & _) & _) _]; lia]|].
  destruct (Z.eqb_spec (opt_width o mod 2) 0); cbn [orb negb];
    [|split; [discriminate | intros [(_ & _ & _ & (_ & _ & ? & _) & _) _]; lia]].
  destruct (Z.eqb_spec (opt_height o mod 2) 0); cbn [orb negb];
    [|split; [discriminate | intros [(_ & _ & _ & (_ & _ & _ & ?) & _) _]; lia]].
  destruct (Z.eqb_spec (opt_colour o) CSPACE_420);
    destruct (Z.eqb_spec (opt_colour o) CSPACE_422); cbn [orb negb];
    try (split; [discriminate | intros [(_ & _ & _ & _ & ? & _) _]; lia]).
  all: destruct (Z.eqb_spec (opt_depth o) DEPTH_8);
    destruct (Z.eqb_spec (opt_depth o) DEPTH_10); cbn [orb negb];
    try (split; [discriminate | intros [(_ & _ & _ & _ & _ & ? & _) _]; lia]).
  all: destruct (Z.ltb_spec (opt_first o) 0);
    try (split; [discriminate | intros [(_ & _ & _ & _ & _ & _ & ? & _) _]; lia]).
  all: destruct (opt_frames o) as [fr|];
    [destruct (Z.leb_spec fr 0);
     [split; [discriminate
             | intros [(_ & _ & _ & _ & _ & _ & _ & Hf & _) _];
               specialize (Hf fr eq_refl); lia]|]|].
  all: destruct (opt_plot o) as [pl|];
    [destruct (Z.eqb_spec pl 0); cbn [negb andb];
     [|destruct (Z.leb_spec pl 0);
       [split; [discriminate
               | intros [(_ & _ & _ & _ & _ & _ & _ & _ & Hp) _];
                 specialize (Hp pl eq_refl); lia]|]]|].
  all: split; [intros [= <-] | intros [_ ->]; reflexivity].
  all: split; [|reflexivity]; repeat split; auto; try lia.
  all: try (intros ? [= <-]; lia); try (intros ? [=]).
Qed.

(** [parse_options] returns the options, unchanged, exactly when every
    check passes: no stray argument, an existing input file, positive even
    width and height, colour 420 or 422, depth 8 or 10, a first frame that
    is not negative, a positive frame count if one is given, and a plot
    interval that is not negative (0 passes); in every other case it ends
    the program with [SystemExit]. *)
Theorem parse_options_accepts_iff (isfile : string -> bool) (o : Options) :
  (forall o', parse_options isfile o = Return o'
              <-> (options_ok isfile o /\ o' = o)) /\
  (~ options_ok isfile o ->
   exists msg, parse_options isfile o = Raise (SystemExit msg)).
Proof.
  split; [intros o'; apply parse_options_accepts|].
  intros Hno. destruct (parse_options isfile o) as [o'|e] eqn:E.
  - exfalso. apply Hno. now apply (parse_options_accepts isfile o o').
  - revert E. unfold parse_options.
    repeat match goal with
           | |- (if ?b then _ else _) = _ -> _ => destruct b
           end; intros [= <-]; eexists; reflexivity.
Qed.

Lemma parse_options_accepts_iff_witness :
  parse_options (fun _ => true)
    (mkOptions [] (Some "in.yuv"%string) None 4 2 420 8 0 None (Some 0))
  = Return (mkOptions [] (Some "in.yuv"%string) None 4 2 420 8 0 None (Some 0)).
Proof.
  apply (proj2 (proj1 (parse_options_accepts_iff _ _) _)). split; [|reflexivity].
  unfold options_ok, valid_geometry. cbn.
  repeat split; auto; try lia; try discriminate.
  intros p [= <-]. lia.
Defined.

(** Under the geometry invariant the sizes computed by [__init__] are
    exact: the chroma shape times the sampling factors is the luma shape,
    [h_smpl * v_smpl * uv_size = y_size = width * height], and a frame takes
    3/2 (4:2:0) or 2 (otherwise) items per pixel. *)
Theorem init_sizes_exact (n m : string) (w h c d : Z) (self : YuvFile) :
  YuvFile_init n m w h c d = Return self ->
  valid_geometry w h ->
  y_size self = w * h /\
  fst (uv_shape self) * v_smpl self = h /\
  snd (uv_shape self) * h_smpl self = w /\
  h_smpl self * v_smpl self * uv_size self = y_size self /\
  0 < uv_size self /\
  (c = CSPACE_420 ->
   2 * frame_bytes self = 3 * Z.of_nat (np.itemsize (dtype self)) * (w * h)) /\
  (c <> CSPACE_420 ->
   frame_bytes self = 2 * Z.of_nat (np.itemsize (dtype self)) * (w * h)).
Proof.
  intros Hinit (Hw & Hh & Hw2 & Hh2).
  assert (Ew : w = 2 * (w / 2)) by (apply Z.div_exact; lia).
  assert (Eh : h = 2 * (h / 2)) by (apply Z.div_exact; lia).
  assert (0 < w / 2) by lia. assert (0 < h / 2) by lia.
  unfold YuvFile_init in Hinit. unfold frame_bytes.
  destruct (d =? DEPTH_10); injection Hinit as <-;
    cbn [y_size uv_shape uv_size v_smpl h_smpl dtype fst snd np.itemsize];
    destruct (Z.eqb_spec c CSPACE_420); rewrite ?Z.div_1_r;
    change (Z.of_nat 1) with 1; change (Z.of_nat 2) with 2;
    repeat split; try (intros; congruence); try nia.
Qed.

Lemma init_sizes_exact_witness :
  y_size demo_cfg = 8 /\ uv_size demo_cfg = 2 /\ frame_bytes demo_cfg = 12.
Proof.
  destruct (init_sizes_exact _ _ _ _ _ _ demo_cfg demo_cfg_init demo_geometry)
    as (Hy & _ & _ & Hs & _ & Hf & _).
  split; [exact Hy|]. split.
  - rewrite Hy in Hs. change (h_smpl demo_cfg * v_smpl demo_cfg) with 4 in Hs. lia.
  - specialize (Hf eq_refl). change (np.itemsize (dtype demo_cfg)) with 1%nat in Hf.
    lia.
Defined.

(** Every handler [main] constructs satisfies what the constructor does
    not check: [main_setup] returns handlers exactly for the options that
    [parse_options] accepts; the input handler then has positive even
    width and height, colour 420 or 422 and depth 8 or 10, and an output
    handler exists exactly when an output name is given, with the same
    derived settings. *)
Theorem main_setup_handlers (isfile : string -> bool) (o : Options) :
  (options_ok isfile o <-> exists hs, main_setup isfile o = Return hs) /\
  forall handle ohandle,
    main_setup isfile o = Return (handle, ohandle) ->
    YuvFile_init (str_or_empty (opt_input o)) "r" (opt_width o) (opt_height o)
                 (opt_colour o) (opt_depth o) = Return handle /\
    valid_geometry (width handle) (height handle) /\
    (colour handle = CSPACE_420 \/ colour handle = CSPACE_422) /\
    (depth handle = DEPTH_8 \/ depth handle = DEPTH_10) /\
    (ohandle = None <-> truthy_str (opt_output o) = false) /\
    forall oh, ohandle = Some oh ->
      derived oh = derived handle /\ mode oh = "w"%string /\
      name oh = str_or_empty (opt_output o).
Proof.
  pose proof (parse_options_accepts isfile o) as Hacc.
  unfold main_setup. split.
  - split.
    + intros Hok. rewrite (proj2 (Hacc o) (conj Hok eq_refl)). cbn [bind].
      unfold YuvFile_init.
      destruct (opt_depth o =? DEPTH_10); destruct (truthy_str (opt_output o));
        eexists; reflexivity.
    + intros [hs H]. destruct (parse_options isfile o) as [o'|e] eqn:E;
        [|discriminate H].
      apply (Hacc o'). reflexivity.
  - intros handle ohandle H.
    destruct (parse_options isfile o) as [o'|e] eqn:E; [|discriminate H].
    destruct (proj1 (Hacc o') eq_refl) as [Hok ->].
    destruct Hok as (_ & _ & _ & Hgeo & Hcol & Hdep & _).
    cbn [bind] in H. unfold YuvFile_init in H |- *.
    destruct (opt_depth o =? DEPTH_10); destruct (truthy_str (opt_output o));
      cbn [bind] in H; injection H as <- <-; cbn;
      (split; [reflexivity|]); (split; [exact Hgeo|]);
      (split; [exact Hcol|]); (split; [exact Hdep|]);
      (split; [split; [discriminate || reflexivity | discriminate || reflexivity]|]);
      intros oh Ho; try discriminate Ho; injection Ho as <-; cbn;
      repeat split; reflexivity.
Qed.

Lemma main_setup_handlers_witness :
  exists handle,
    main_setup (fun _ => true)
      (mkOptions [] (Some "in.yuv"%string) None 4 2 420 8 0 None None)
    = Return (handle, None) /\
    valid_geometry (width handle) (height handle).
Proof.
  destruct (main_setup_handlers (fun _ => true)
              (mkOptions [] (Some "in.yuv"%string) None 4 2 420 8 0 None None))
    as [_ H].
  eexists. split; [reflexivity|].
  eapply H. reflexivity.
Defined.

(** ** Further properties of [to_rgb_8b] and [__upsample_chroma] *)

(** [__upsample_chroma] on any well-formed integer plane of [r x c]
    samples, whatever the geometry of the handler: the result is an
    [int64] array of [(r v) x (2 c)] samples ([v] = 2 for colour 420, else
    1) that holds the sample [(i div v, j div 2)] at [(i, j)]; the dtype of
    the plane is not kept. *)
Theorem upsample_chroma_any_plane (self : YuvFile) (dt : np.int_dtype)
    (r c : nat) (d : list Z) :
  np.wf (np.IArr dt r c d) ->
  exists out,
    upsample_chroma self (np.IArr dt r c d)
    = np.IArr np.int64 (r * v_factor self) (c * 2) out /\
    np.wf (np.IArr np.int64 (r * v_factor self) (c * 2) out) /\
    forall i j, (i < r * v_factor self)%nat -> (j < c * 2)%nat ->
      exists x,
        np.iitem (np.IArr dt r c d) (i / v_factor self) (j / 2) = Some x /\
        np.iitem (np.IArr np.int64 (r * v_factor self) (c * 2) out) i j = Some x.
Proof.
  intros [Hl Hin].
  destruct (upsample_chroma_int self dt r c d Hl Hin) as (out & Hout & Hlo & Hidx).
  exists out. split; [exact Hout|].
  assert (Hv : (0 < v_factor self)%nat)
    by (unfold v_factor; destruct (colour self =? CSPACE_420); lia).
  split.
  - split; [exact Hlo|]. apply Forall_forall. intros x Hx.
    apply In_nth_error in Hx. destruct Hx as [k Hk].
    assert (Hkl : (k < r * v_factor self * (c * 2))%nat).
    { rewrite <- Hlo. apply nth_error_Some. congruence. }
    destruct (Hidx (k / (c * 2))%nat (k mod (c * 2))%nat) as (x' & Hx' & Ho).
    + apply Nat.Div0.div_lt_upper_bound. lia.
    + apply Nat.mod_upper_bound. lia.
    + replace (k / (c * 2) * (c * 2) + k mod (c * 2))%nat with k in Ho
        by (rewrite (Nat.div_mod_eq k (c * 2)) at 1; lia).
      rewrite Hk in Ho. injection Ho as ->.
      apply nth_error_In in Hx'. rewrite Forall_forall in Hin.
      eapply in_dtype_int64, Hin, Hx'.
  - intros i j Hi Hj. destruct (Hidx i j Hi Hj) as (x & Hx & Ho).
    exists x. unfold np.iitem.
    assert (Hi' : (i / v_factor self < r)%nat)
      by (apply Nat.Div0.div_lt_upper_bound; lia).
    assert (Hj' : (j / 2 < c)%nat)
      by (apply Nat.Div0.div_lt_upper_bound; lia).
    rewrite (proj2 (Nat.ltb_lt _ _) Hi'), (proj2 (Nat.ltb_lt _ _) Hj').
    rewrite (proj2 (Nat.ltb_lt _ _) Hi), (proj2 (Nat.ltb_lt _ _) Hj).
    split; assumption.
Qed.

Lemma upsample_chroma_any_plane_witness :
  exists out,
    upsample_chroma demo_cfg (np.IArr np.uint16 2 3 [1; 2; 3; 4; 5; 6])
    = np.IArr np.int64 4 6 out.
Proof.
  destruct (upsample_chroma_any_plane demo_cfg np.uint16 2 3 [1; 2; 3; 4; 5; 6])
    as (out & Hout & _).
  - split; [reflexivity|]. repeat constructor; cbn; lia.
  - exists out. exact Hout.
Defined.

(** A [float64] array among the arguments of [to_rgb_8b] (such as a plane
    of the sentinel of [read_frame]) makes it raise [TypeError]: the bit
    shift of the normalisation is not defined on floats. *)
Theorem to_rgb_8b_float_input (self : YuvFile) (y u v : np.ndarray) :
  is_float y \/ is_float u \/ is_float v ->
  to_rgb_8b self y u v = Raise TypeError.
Proof.
  unfold to_rgb_8b, upsample_chroma.
  destruct y as [dy ry cy yd|ry cy yd], u as [du ru cu ud|ru cu ud],
           v as [dv rv cv vd|rv cv vd];
    cbn [is_float]; intros H; try tauto;
    destruct (colour self =? CSPACE_420); reflexivity.
Qed.

Lemma to_rgb_8b_float_input_witness :
  to_rgb_8b demo_cfg (np.empty 0 0) (np.empty 0 0) (np.empty 0 0)
  = Raise TypeError.
Proof.
  apply to_rgb_8b_float_input. left. exact I.
Defined.

Lemma to_rgb_8b_on_shapes (self : YuvFile) (dy du dv : np.int_dtype)
    (ry cy ru cu : nat) (yd ud vd : list Z) :
  np.wf (np.IArr du ru cu ud) -> np.wf (np.IArr dv ru cu vd) ->
  (ry = (ru * v_factor self)%nat -> cy = (cu * 2)%nat ->
   exists rd gd bd,
     to_rgb_8b self (np.IArr dy ry cy yd) (np.IArr du ru cu ud)
                    (np.IArr dv ru cu vd)
     = Return (np.FArr ry cy rd, np.FArr ry cy gd, np.FArr ry cy bd)) /\
  (np.bdim cy (cu * 2) = None ->
   to_rgb_8b self (np.IArr dy ry cy yd) (np.IArr du ru cu ud)
                  (np.IArr dv ru cu vd)
   = Raise ValueError).
Proof.
  intros [Hul Hud] [Hvl Hvd].
  destruct (upsample_chroma_int self du _ _ ud Hul Hud) as (cbd & Hcb & _).
  destruct (upsample_chroma_int self dv _ _ vd Hvl Hvd) as (crd & Hcr & _).
  unfold to_rgb_8b. rewrite Hcb, Hcr. split.
  - intros -> ->.
    repeat (progress (rewrite ?bdim_same;
      cbn [np.add_int np.right_shift bind np.sub_int np.mul_float np.shape
           np.add np.subtract np.binop np.floats np.clip])).
    do 3 eexists. reflexivity.
  - intros Hb.
    cbn [np.add_int np.right_shift bind np.sub_int np.mul_float np.shape
         np.add np.subtract np.binop np.floats np.clip].
    rewrite Hb. destruct (np.bdim ry (ru * v_factor self)); reflexivity.
Qed.

(** The constructor accepts an odd width, but [to_rgb_8b] then fails: for
    an odd width of at least 3 (and an even height) the upsampled chroma
    planes are one column narrower than the luma plane, and the colour
    transform raises [ValueError] on every frame of the handler's shapes. *)
Theorem to_rgb_8b_odd_width (n m : string) (w h c d : Z) (self : YuvFile)
    (y u v : np.ndarray) :
  YuvFile_init n m w h c d = Return self ->
  3 <= w -> w mod 2 = 1 -> 0 < h -> h mod 2 = 0 ->
  frame_plane self (y_shape self) y ->
  frame_plane self (uv_shape self) u ->
  frame_plane self (uv_shape self) v ->
  np.shape (upsample_chroma self u)
  = (Z.to_nat h, (Z.to_nat w - 1)%nat) /\
  to_rgb_8b self y u v = Raise ValueError.
Proof.
  intros Hinit Hw Hodd Hh Heven (yd & -> & Hy) (ud & -> & Hu) (vd & -> & Hv).
  destruct (init_fields _ _ _ _ _ _ _ Hinit)
    as (Hc & _ & _ & _ & _ & _ & Hys & _ & Huv & _).
  assert (Ecols : (Z.to_nat (snd (uv_shape self)) * 2 = Z.to_nat w - 1)%nat).
  { rewrite Huv. cbn [snd].
    assert (E : w = 2 * (w / 2) + 1) by (rewrite <- Hodd; apply Z.div_mod; lia).
    rewrite E at 2. rewrite Z2Nat.inj_add, Z2Nat.inj_mul by lia.
    change (Z.to_nat 2) with 2%nat. change (Z.to_nat 1) with 1%nat. lia. }
  assert (Erows : (Z.to_nat (fst (uv_shape self)) * v_factor self = Z.to_nat h)%nat).
  { rewrite Huv. cbn [fst]. unfold v_factor. rewrite Hc.
    destruct (c =? CSPACE_420).
    - apply to_nat_half; assumption.
    - rewrite Z.div_1_r. lia. }
  split.
  - destruct Hu as [Hul Hud].
    destruct (upsample_chroma_int self _ _ _ ud Hul Hud) as (out & -> & _).
    cbn [np.shape]. now rewrite Erows, Ecols.
  - apply (to_rgb_8b_on_shapes self _ _ _ _ _ _ _ yd ud vd Hu Hv).
    rewrite Hys, Ecols. cbn [snd]. unfold np.bdim.
    assert (Hn : (3 <= Z.to_nat w)%nat) by lia.
    destruct (Nat.eqb_spec (Z.to_nat w) (Z.to_nat w - 1)); [lia|].
    destruct (Nat.eqb_spec (Z.to_nat w) 1); [lia|].
    destruct (Nat.eqb_spec (Z.to_nat w - 1) 1); [|reflexivity].
    exfalso. assert (w = 2) by lia. subst w. discriminate Hodd.
Qed.

Lemma to_rgb_8b_odd_width_witness :
  to_rgb_8b (mkYuvFile "in.yuv" "r" 3 2 420 8 2 2 np.uint8 0 0 (2, 3) 6 (1, 1) 1)
    (np.IArr np.uint8 2 3 [16; 16; 16; 16; 16; 16])
    (np.IArr np.uint8 1 1 [128]) (np.IArr np.uint8 1 1 [128])
  = Raise ValueError.
Proof.
  refine (proj2 (to_rgb_8b_odd_width "in.yuv" "r" 3 2 420 8 _ _ _ _
                   eq_refl ltac:(lia) eq_refl ltac:(lia) eq_refl _ _ _)).
  - exists [16; 16; 16; 16; 16; 16]. split; [reflexivity|].
    split; [reflexivity|]. repeat constructor; cbn; lia.
  - exists [128]. split; [reflexivity|].
    split; [reflexivity|]. repeat constructor; cbn; lia.
  - exists [128]. split; [reflexivity|].
    split; [reflexivity|]. repeat constructor; cbn; lia.
Defined.

Lemma gray_levels :
  Forall (fun y8 =>
            spec_R y8 128 = np.float_of_Z (Z.min y8 255) /\
            spec_G y8 128 128 = np.float_of_Z (Z.min y8 255) /\
            spec_B y8 128 = np.float_of_Z (Z.min y8 255)) levels.
Proof.
  let l := eval vm_compute in levels in change levels with l.
  repeat (apply Forall_cons; [repeat split; reflexivity|]).
  apply Forall_nil.
Qed.

(** Neutral chroma gives gray: at a pixel where both upsampled chroma
    samples normalise to 128, the three channels are equal to the
    normalised luma sample, limited to 255 (the 10-bit sample 1023
    normalises to 256). *)
Theorem to_rgb_8b_neutral_chroma (n m : string) (w h c dp : Z)
    (self : YuvFile) (y u v : np.ndarray) (i j : nat) (ys cb cr : Z) :
  YuvFile_init n m w h c dp = Return self ->
  valid_geometry w h ->
  plane (dtype self) h w (sample_bits self) y ->
  plane (dtype self) (fst (uv_shape self)) (snd (uv_shape self))
        (sample_bits self) u ->
  plane (dtype self) (fst (uv_shape self)) (snd (uv_shape self))
        (sample_bits self) v ->
  (i < Z.to_nat h)%nat -> (j < Z.to_nat w)%nat ->
  np.iitem y i j = Some ys ->
  np.iitem (upsample_chroma self u) i j = Some cb ->
  np.iitem (upsample_chroma self v) i j = Some cr ->
  spec_norm8 self cb = 128 -> spec_norm8 self cr = 128 ->
  exists r g b,
    to_rgb_8b self y u v = Return (r, g, b) /\
    let gray := np.float_of_Z (Z.min (spec_norm8 self ys) 255) in
    np.fitem r i j = Some gray /\
    np.fitem g i j = Some gray /\
    np.fitem b i j = Some gray.
Proof.
  intros Hinit Hgeo Hy Hu Hv Hi Hj Eys Ecb Ecr Ncb Ncr.
  destruct (to_rgb_8b_pixels _ _ _ _ _ _ _ _ _ _ Hinit Hgeo Hy Hu Hv)
    as (rd & gd & bd & Hret & _ & _ & _ & Hpix).
  destruct (Hpix i j Hi Hj)
    as (ys' & us & vs & Hys & _ & _ & Hcb & Hcr & HR & HG & HB & Ry & _).
  rewrite Eys in Hys. injection Hys as <-.
  rewrite Ecb in Hcb. injection Hcb as <-.
  rewrite Ecr in Hcr. injection Hcr as <-.
  rewrite Ncb, Ncr in *.
  pose proof gray_levels as HG0. rewrite Forall_forall in HG0.
  destruct (HG0 _ (in_levels _ Ry)) as (GR & GG & GB).
  do 3 eexists. split; [exact Hret|]. cbv zeta.
  rewrite !fitem_nth_error by assumption.
  rewrite HR, HG, HB, GR, GG, GB. repeat split; reflexivity.
Qed.

Lemma to_rgb_8b_neutral_chroma_witness :
  exists r g b,
    to_rgb_8b demo_cfg demo_y demo_u demo_u = Return (r, g, b) /\
    np.fitem r 1 2 = Some 16%float /\
    np.fitem g 1 2 = Some 16%float /\
    np.fitem b 1 2 = Some 16%float.
Proof.
  assert (Hp : forall r c d,
             List.length d = (Z.to_nat r * Z.to_nat c)%nat ->
             Forall (fun x => 0 <= x < 2 ^ sample_bits demo_cfg) d ->
             plane np.uint8 r c (sample_bits demo_cfg)
               (np.IArr np.uint8 (Z.to_nat r) (Z.to_nat c) d)).
  { intros r c d Hl Hb. exists d. auto. }
  refine (to_rgb_8b_neutral_chroma _ _ _ _ _ _ demo_cfg demo_y demo_u demo_u
            1%nat 2%nat 16 128 128 demo_cfg_init demo_geometry _ _ _
            ltac:(cbn; lia) ltac:(cbn; lia) eq_refl eq_refl eq_refl
            eq_refl eq_refl).
  - apply (Hp 2 4); [reflexivity|]. repeat constructor; cbn; lia.
  - apply (Hp 1 2); [reflexivity|]. repeat constructor; cbn; lia.
  - apply (Hp 1 2); [reflexivity|]. repeat constructor; cbn; lia.
Defined.

(** ** Bytes of a frame *)

Lemma byte_of_Z_of_byte (b : byte) : np.byte_of_Z (np.Z_of_byte b) = b.
Proof.
  unfold np.byte_of_Z, np.Z_of_byte.
  pose proof (Byte.to_N_bounded b) as Hb.
  rewrite Z.mod_small by lia. rewrite N2Z.id, Byte.of_to_N. reflexivity.
Qed.

Lemma Z_of_byte_range (b : byte) : 0 <= np.Z_of_byte b < 256.
Proof.
  unfold np.Z_of_byte. pose proof (Byte.to_N_bounded b). lia.
Qed.

Lemma byte_of_Z_mod (z : Z) : np.byte_of_Z (z mod 256) = np.byte_of_Z z.
Proof. unfold np.byte_of_Z. rewrite Z.mod_mod by lia. reflexivity. Qed.

Lemma le_encode_decode (bs : list byte) :
  np.le_encode (List.length bs) (np.le_decode bs) = bs.
Proof.
  induction bs as [|b bs IH]; [reflexivity|].
  cbn [List.length np.le_encode np.le_decode fold_right].
  fold (np.le_decode bs).
  pose proof (Z_of_byte_range b) as Hb.
  f_equal.
  - rewrite <- byte_of_Z_mod.
    rewrite Z.mul_comm, Z.mod_add by lia.
    rewrite Z.mod_small by lia. apply byte_of_Z_of_byte.
  - rewrite Z.mul_comm, Z.div_add by lia.
    rewrite (Z.div_small (np.Z_of_byte b)) by lia. rewrite Z.add_0_l. exact IH.
Qed.

Lemma le_encode_mod (n : nat) (z : Z) :
  np.le_encode n (z mod 256 ^ Z.of_nat n) = np.le_encode n z.
Proof.
  rewrite <- le_decode_encode.
  rewrite <- (le_encode_length n z) at 1. apply le_encode_decode.
Qed.

Lemma wrap_mod (dt : np.int_dtype) (z : Z) :
  np.wrap dt z mod 256 ^ Z.of_nat (np.itemsize dt)
  = z mod 256 ^ Z.of_nat (np.itemsize dt).
Proof.
  destruct dt; cbn [np.wrap np.itemsize].
  - change (256 ^ Z.of_nat 1) with (2 ^ 8). apply Z.mod_mod. lia.
  - change (256 ^ Z.of_nat 2) with (2 ^ 16). apply Z.mod_mod. lia.
  - change (256 ^ Z.of_nat 8) with (2 ^ 64).
    rewrite <- Zminus_mod_idemp_l, Z.mod_mod by lia.
    rewrite Zminus_mod_idemp_l. f_equal. lia.
Qed.

(** Encoding undoes decoding: the bytes of an item read from a file are
    the bytes that were read. *)
Lemma bytes_of_item_of_bytes (dt : np.int_dtype) (bs : list byte) :
  List.length bs = np.itemsize dt ->
  np.bytes_of_item dt (np.item_of_bytes dt bs) = bs.
Proof.
  intros Hl. unfold np.bytes_of_item, np.item_of_bytes.
  rewrite <- le_encode_mod, wrap_mod, le_encode_mod.
  rewrite <- Hl. apply le_encode_decode.
Qed.

Lemma firstn_add {A : Type} (a b : nat) (l : list A) :
  firstn (a + b) l = firstn a l ++ firstn b (skipn a l).
Proof.
  revert l. induction a as [|a IH]; intros l; [reflexivity|].
  destruct l as [|x l]; cbn [Nat.add firstn skipn app].
  - now rewrite firstn_nil.
  - now rewrite IH.
Qed.

Lemma encode_decode_items (dt : np.int_dtype) (n : nat) (bs : list byte) :
  (n * np.itemsize dt <= List.length bs)%nat ->
  flat_map (np.bytes_of_item dt) (np.decode_items dt n bs)
  = firstn (n * np.itemsize dt) bs.
Proof.
  revert bs. induction n as [|n IH]; intros bs Hl; [reflexivity|].
  cbn [np.decode_items flat_map Nat.mul].
  rewrite bytes_of_item_of_bytes by (apply firstn_length_le; lia).
  rewrite IH by (rewrite length_skipn; lia).
  symmetry. apply firstn_add.
Qed.

Lemma decode_items_in_dtype (dt : np.int_dtype) (n : nat) (bs : list byte) :
  Forall (np.in_dtype dt) (np.decode_items dt n bs).
Proof.
  revert bs. induction n as [|n IH]; intros bs; cbn [np.decode_items];
    constructor; [|apply IH].
  unfold np.item_of_bytes.
  destruct dt; cbn [np.wrap np.in_dtype].
  - apply Z.mod_pos_bound. lia.
  - apply Z.mod_pos_bound. lia.
  - pose proof (Z.mod_pos_bound (np.le_decode (firstn (np.itemsize np.int64) bs) + 2 ^ 63)
                  (2 ^ 64) ltac:(lia)). lia.
Qed.

(** ** Sequences of frames *)

Lemma frame_len_sum (n m : string) (w h c d : Z) (self : YuvFile) :
  YuvFile_init n m w h c d = Return self -> 0 < w -> 0 < h ->
  frame_len self
  = (Z.to_nat (y_size self) * np.itemsize (dtype self)
     + (Z.to_nat (uv_size self) * np.itemsize (dtype self)
        + Z.to_nat (uv_size self) * np.itemsize (dtype self)))%nat /\
  (0 < Z.to_nat (y_size self))%nat /\ (0 < frame_len self)%nat.
Proof.
  intros Hinit Hw Hh.
  destruct (init_shapes _ _ _ _ _ _ _ Hinit Hw Hh)
    as (_ & Hyz & _ & _ & _ & _ & Hy0 & Hu0).
  pose proof (itemsize_pos (dtype self)) as Hsz.
  assert (Hy : 0 < y_size self) by (rewrite Hyz; nia).
  assert (E : frame_len self
     = (Z.to_nat (y_size self) * np.itemsize (dtype self)
        + (Z.to_nat (uv_size self) * np.itemsize (dtype self)
           + Z.to_nat (uv_size self) * np.itemsize (dtype self)))%nat).
  { unfold frame_len, frame_bytes.
    rewrite Z2Nat.inj_mul, Nat2Z.id, Z2Nat.inj_add, Z2Nat.inj_mul by lia.
    change (Z.to_nat 2) with 2%nat. lia. }
  split; [exact E|]. split; [lia|]. rewrite E. nia.
Qed.

Lemma read_frame_short (n m : string) (w h c d : Z) (self : YuvFile)
    (f : np.file) :
  YuvFile_init n m w h c d = Return self -> 0 < w -> 0 < h ->
  (List.length f < frame_len self)%nat ->
  read_frame self f = (Return sentinel, []).
Proof.
  intros Hinit Hw Hh Hshort.
  destruct (frame_len_sum _ _ _ _ _ _ _ Hinit Hw Hh) as (EF & _ & _).
  destruct (init_shapes _ _ _ _ _ _ _ Hinit Hw Hh)
    as (Hys & Hyz & Hur & Huc & Huv & Huz & Hy0 & Hu0).
  unfold read_frame, try_except_ValueError, io_bind, fromfile_reshape, io_ret.
  rewrite Huv, Hys.
  assert (Hshape : forall items r c0 count,
            0 <= r -> 0 <= c0 -> r * c0 = count ->
            Z.of_nat (List.length items) < count ->
            np.reshape (dtype self) items (r, c0) = Raise ValueError).
  { intros items r c0 count Hr Hc0 E Hlt. rewrite reshape_cases by assumption.
    destruct (Z.eqb_spec (r * c0) (Z.of_nat (List.length items))); [lia|reflexivity]. }
  assert (Hfull : forall items r c0 count,
            0 <= r -> 0 <= c0 -> r * c0 = count ->
            Z.of_nat (List.length items) = count ->
            np.reshape (dtype self) items (r, c0)
            = Return (np.IArr (dtype self) (Z.to_nat r) (Z.to_nat c0) items)).
  { intros items r c0 count Hr Hc0 E Hlt. rewrite reshape_cases by assumption.
    destruct (Z.eqb_spec (r * c0) (Z.of_nat (List.length items))); [reflexivity|lia]. }
  destruct (fromfile_cases f (dtype self) (y_size self) Hy0)
    as [(Ly & Ey & Cy)|(Ly & Ey & Cy)];
    destruct (np.fromfile f (dtype self) (y_size self)) as [yi f1];
    cbn [fst snd] in *.
  2:{ subst f1. rewrite (Hshape yi h w (y_size self)) by lia. reflexivity. }
  injection Ey as -> ->.
  rewrite (Hfull _ h w (y_size self)) by (rewrite ?decode_items_length; lia).
  set (f1 := skipn _ f) in *.
  assert (L1 : List.length f1
               = (List.length f - Z.to_nat (y_size self) * np.itemsize (dtype self))%nat)
    by apply length_skipn.
  destruct (fromfile_cases f1 (dtype self) (uv_size self) Hu0)
    as [(Lu & Eu & Cu)|(Lu & Eu & Cu)];
    destruct (np.fromfile f1 (dtype self) (uv_size self)) as [ui f2];
    cbn [fst snd] in *.
  2:{ subst f2. rewrite (Hshape ui _ _ (uv_size self)) by lia. reflexivity. }
  injection Eu as -> ->.
  rewrite (Hfull _ _ _ (uv_size self)) by (rewrite ?decode_items_length; lia).
  set (f2 := skipn _ f1) in *.
  assert (L2 : List.length f2
               = (List.length f1 - Z.to_nat (uv_size self) * np.itemsize (dtype self))%nat)
    by apply length_skipn.
  destruct (fromfile_cases f2 (dtype self) (uv_size self) Hu0)
    as [(Lv & Ev & Cv)|(Lv & Ev & Cv)];
    destruct (np.fromfile f2 (dtype self) (uv_size self)) as [vi f3];
    cbn [fst snd] in *.
  - exfalso. lia.
  - subst f3. rewrite (Hshape vi _ _ (uv_size self)) by lia. reflexivity.
Qed.

Lemma read_frame_full (n m : string) (w h c d : Z) (self : YuvFile)
    (f : np.file) :
  YuvFile_init n m w h c d = Return self -> 0 < w -> 0 < h ->
  (frame_len self <= List.length f)%nat ->
  let dt := dtype self in
  let ny := (Z.to_nat (y_size self) * np.itemsize dt)%nat in
  let nu := (Z.to_nat (uv_size self) * np.itemsize dt)%nat in
  read_frame self f
  = (Return
       (np.IArr dt (Z.to_nat (fst (y_shape self))) (Z.to_nat (snd (y_shape self)))
                (np.decode_items (dtype self) (Z.to_nat (y_size self)) f),
        np.IArr dt (Z.to_nat (fst (uv_shape self))) (Z.to_nat (snd (uv_shape self)))
                (np.decode_items (dtype self) (Z.to_nat (uv_size self)) (skipn ny f)),
        np.IArr dt (Z.to_nat (fst (uv_shape self))) (Z.to_nat (snd (uv_shape self)))
                (np.decode_items (dtype self) (Z.to_nat (uv_size self)) (skipn (ny + nu) f))),
     skipn (frame_len self) f).
Proof.
  intros Hinit Hw Hh Hlen dt ny nu. subst dt.
  destruct (frame_len_sum _ _ _ _ _ _ _ Hinit Hw Hh) as (EF & _ & _).
  fold ny nu in EF.
  destruct (init_shapes _ _ _ _ _ _ _ Hinit Hw Hh)
    as (_ & _ & _ & _ & _ & _ & Hy0 & Hu0).
  assert (Ey : y_read self f
               = (np.decode_items (dtype self) (Z.to_nat (y_size self)) f, skipn ny f)).
  { unfold y_read.
    destruct (fromfile_cases f (dtype self) (y_size self) Hy0) as [(_ & E & _)|(L & _)];
      [exact E | fold ny in L; lia]. }
  assert (Eu : u_read self f
               = (np.decode_items (dtype self) (Z.to_nat (uv_size self)) (skipn ny f),
                  skipn (ny + nu) f)).
  { unfold u_read. rewrite Ey. cbn [snd].
    destruct (fromfile_cases (skipn ny f) (dtype self) (uv_size self) Hu0)
      as [(_ & E & _)|(L & _)].
    - rewrite E, skipn_skipn. f_equal. f_equal. fold nu. lia.
    - rewrite length_skipn in L. fold nu in L. lia. }
  assert (Ev : v_read self f
               = (np.decode_items (dtype self) (Z.to_nat (uv_size self)) (skipn (ny + nu) f),
                  skipn (frame_len self) f)).
  { unfold v_read. rewrite Eu. cbn [snd].
    destruct (fromfile_cases (skipn (ny + nu) f) (dtype self) (uv_size self) Hu0)
      as [(_ & E & _)|(L & _)].
    - rewrite E, skipn_skipn. f_equal. f_equal. fold nu. lia.
    - rewrite length_skipn in L. fold nu in L. lia. }
  destruct (read_frame_cases _ _ _ _ _ _ _ f Hinit Hw Hh) as [Hyes _].
  rewrite Hyes.
  - unfold frame_read. rewrite Ey, Eu, Ev. reflexivity.
  - apply (reads_complete_iff _ _ _ _ _ _ _ f Hinit Hw Hh).
    unfold frame_len in Hlen. lia.
Qed.

Lemma read_frame_planes (n m : string) (w h c d : Z) (self : YuvFile)
    (f : np.file) :
  YuvFile_init n m w h c d = Return self -> 0 < w -> 0 < h ->
  (frame_len self <= List.length f)%nat ->
  exists y u v,
    read_frame self f = (Return (y, u, v), skipn (frame_len self) f) /\
    frame_plane self (y_shape self) y /\
    frame_plane self (uv_shape self) u /\
    frame_plane self (uv_shape self) v /\
    (forall o out, write_frame o y u v out = out ++ firstn (frame_len self) f).
Proof.
  intros Hinit Hw Hh Hlen.
  pose proof (read_frame_full _ _ _ _ _ _ _ f Hinit Hw Hh Hlen) as Hrf.
  cbv zeta in Hrf.
  destruct (frame_len_sum _ _ _ _ _ _ _ Hinit Hw Hh) as (EF & _ & _).
  destruct (init_shapes _ _ _ _ _ _ _ Hinit Hw Hh)
    as (Hys & Hyz & Hur & Huc & _ & Huz & Hy0 & Hu0).
  set (ny := (Z.to_nat (y_size self) * np.itemsize (dtype self))%nat) in *.
  set (nu := (Z.to_nat (uv_size self) * np.itemsize (dtype self))%nat) in *.
  do 3 eexists. split; [exact Hrf|].
  assert (Hplane : forall shp count bs,
            0 <= fst shp -> 0 <= snd shp -> count = fst shp * snd shp ->
            frame_plane self shp
              (np.IArr (dtype self) (Z.to_nat (fst shp)) (Z.to_nat (snd shp))
                       (np.decode_items (dtype self) (Z.to_nat count) bs))).
  { intros shp count bs H1 H2 ->. eexists. split; [reflexivity|].
    split; [|apply decode_items_in_dtype].
    rewrite decode_items_length. apply Z2Nat.inj_mul; assumption. }
  split; [apply Hplane; rewrite ?Hys; cbn [fst snd]; lia|].
  split; [apply Hplane; lia|]. split; [apply Hplane; lia|].
  intros o out. unfold write_frame, np.tofile.
  rewrite !encode_decode_items.
  - fold ny nu. rewrite <- !app_assoc. f_equal.
    rewrite EF, !firstn_add, skipn_skipn.
    replace (nu + ny)%nat with (ny + nu)%nat by lia. reflexivity.
  - fold nu. rewrite length_skipn. lia.
  - fold nu. rewrite length_skipn. lia.
  - fold ny. lia.
Qed.

(** A read that finds a whole frame advances the file by exactly the bytes
    of one frame and returns planes of the handler's dtype and shapes that
    are well formed; writing that frame appends exactly the bytes that
    were read, so that reading and writing copies a frame byte for byte. *)
Theorem read_frame_then_write_frame (n m : string) (w h c d : Z)
    (self : YuvFile) (f : np.file) :
  YuvFile_init n m w h c d = Return self -> 0 < w -> 0 < h ->
  frame_bytes self <= Z.of_nat (List.length f) ->
  exists y u v,
    read_frame self f = (Return (y, u, v), skipn (frame_len self) f) /\
    frame_plane self (y_shape self) y /\
    frame_plane self (uv_shape self) u /\
    frame_plane self (uv_shape self) v /\
    (forall o out, write_frame o y u v out = out ++ firstn (frame_len self) f).
Proof.
  intros Hinit Hw Hh Hlen.
  apply (read_frame_planes _ _ _ _ _ _ _ f Hinit Hw Hh).
  unfold frame_len. lia.
Qed.

Lemma read_frame_then_write_frame_witness :
  exists y u v,
    read_frame demo_cfg (demo_frame_file ++ demo_garbage)
    = (Return (y, u, v), demo_garbage) /\
    write_frame demo_cfg y u v [] = demo_frame_file.
Proof.
  destruct (read_frame_then_write_frame _ _ _ _ _ _ demo_cfg
              (demo_frame_file ++ demo_garbage) demo_cfg_init
              ltac:(reflexivity) ltac:(reflexivity))
    as (y & u & v & Hr & _ & _ & _ & Hw).
  - vm_compute. discriminate.
  - exists y, u, v. split; [exact Hr|]. rewrite Hw. reflexivity.
Defined.

(** The end of the stream is final: for a handler whose luma size is a
    valid count, a read that does not find a whole frame returns the
    sentinel and leaves the file at its end, with no byte left; and a read
    at the end of the file returns the sentinel again and stays there. *)
Theorem read_frame_sentinel_is_final (n m : string) (w h c d : Z)
    (self : YuvFile) (f : np.file) :
  YuvFile_init n m w h c d = Return self -> 0 < w -> 0 < h ->
  y_size self < 2 ^ 63 ->
  Z.of_nat (List.length f) < frame_bytes self ->
  read_frame self f = (Return sentinel, []) /\
  read_frame self [] = (Return sentinel, []).
Proof.
  intros Hinit Hw Hh _ Hlen.
  destruct (frame_len_sum _ _ _ _ _ _ _ Hinit Hw Hh) as (_ & _ & Hpos).
  split; apply (read_frame_short _ _ _ _ _ _ _ _ Hinit Hw Hh).
  - unfold frame_len. lia.
  - cbn. exact Hpos.
Qed.

Lemma read_frame_sentinel_is_final_witness :
  read_frame demo_cfg demo_garbage = (Return sentinel, []) /\
  read_frame demo_cfg [] = (Return sentinel, []).
Proof.
  apply (read_frame_sentinel_is_final _ _ _ _ _ _ demo_cfg demo_garbage
           demo_cfg_init); reflexivity.
Defined.

(** [write_frame] appends to the file, and what it appends has the size of
    the three buffers in their own dtypes: the dtype of the handler is not
    consulted, so that an [int64] plane (as [__upsample_chroma] returns)
    takes 8 bytes per sample. *)
Theorem write_frame_appends (self : YuvFile) (y u v : np.ndarray)
    (f : np.file) :
  np.wf y -> np.wf u -> np.wf v ->
  exists bs,
    write_frame self y u v f = f ++ bs /\
    List.length bs = (nbytes y + nbytes u + nbytes v)%nat.
Proof.
  assert (H : forall a g, np.wf a ->
            exists bs, np.tofile a g = g ++ bs /\ List.length bs = nbytes a).
  { intros [dt r c dd|r c dd] g Hwf; cbn [np.wf np.tofile nbytes] in *.
    - destruct Hwf as [Hl _]. eexists. split; [reflexivity|].
      rewrite encoded_length, Hl. reflexivity.
    - eexists. split; [reflexivity|].
      rewrite (length_flat_map_const _ 8), Hwf; [reflexivity|].
      intros x _. apply le_encode_length. }
  intros Hy Hu Hv. unfold write_frame.
  destruct (H y f Hy) as (by_ & -> & Ly).
  destruct (H u (f ++ by_) Hu) as (bu & -> & Lu).
  destruct (H v ((f ++ by_) ++ bu) Hv) as (bv & -> & Lv).
  exists (by_ ++ bu ++ bv). split.
  - now rewrite <- !app_assoc.
  - rewrite !length_app. lia.
Qed.

Lemma write_frame_appends_witness :
  exists bs,
    write_frame demo_cfg demo_y (upsample_chroma demo_cfg demo_u) demo_v [x01]
    = [x01] ++ bs /\
    List.length bs = (8 + 64 + 2)%nat.
Proof.
  apply (write_frame_appends demo_cfg demo_y (upsample_chroma demo_cfg demo_u)
           demo_v [x01]).
  - split; [reflexivity|]. repeat constructor; cbn; lia.
  - split; [reflexivity|]. repeat constructor; cbn; lia.
  - split; [reflexivity|]. repeat constructor; cbn; lia.
Defined.

(** ** The frame loop *)

Lemma to_rgb_8b_of_read_frame (n m : string) (w h c d : Z) (self : YuvFile)
    (y u v : np.ndarray) :
  YuvFile_init n m w h c d = Return self -> valid_geometry w h ->
  frame_plane self (y_shape self) y ->
  frame_plane self (uv_shape self) u ->
  frame_plane self (uv_shape self) v ->
  exists r g b, to_rgb_8b self y u v = Return (r, g, b).
Proof.
  intros Hinit Hgeo (yd & -> & _) (ud & -> & Hu) (vd & -> & Hv).
  destruct (chroma_shape_nat _ _ _ _ _ _ _ Hinit Hgeo) as [Hr Hc].
  destruct (init_fields _ _ _ _ _ _ _ Hinit)
    as (_ & _ & _ & _ & _ & _ & Hys & _).
  destruct (to_rgb_8b_on_shapes self (dtype self) (dtype self) (dtype self)
              (Z.to_nat (fst (y_shape self))) (Z.to_nat (snd (y_shape self)))
              _ _ yd ud vd Hu Hv) as [Hok _].
  destruct Hok as (rd & gd & bd & E).
  - rewrite Hys, Hr. reflexivity.
  - rewrite Hys, Hc. reflexivity.
  - do 3 eexists. exact E.
Qed.

Lemma div_sub_same (a b : nat) :
  (0 < b)%nat -> (b <= a)%nat -> (a / b = S ((a - b) / b))%nat.
Proof.
  intros Hb Hab. replace a with ((a - b) + 1 * b)%nat at 1 by lia.
  rewrite Nat.div_add by lia. lia.
Qed.

Lemma frames_read_step (opts : Options) (frame : Z) (avail : nat) :
  loop_cond opts frame = true ->
  frames_read opts frame (S avail) = S (frames_read opts (frame + 1) avail).
Proof.
  unfold loop_cond, frames_read, frame_limit.
  destruct (opt_frames opts) as [fr|]; [|reflexivity].
  destruct (Z.eqb_spec fr 0); [reflexivity|]. cbn [orb].
  intros Hlt. apply Z.ltb_lt in Hlt.
  replace (Z.to_nat (opt_first opts + fr - frame))
    with (S (Z.to_nat (opt_first opts + fr - (frame + 1)))) by lia.
  reflexivity.
Qed.

Lemma frames_read_stop (opts : Options) (frame : Z) (avail : nat) :
  loop_cond opts frame = false -> frames_read opts frame avail = 0%nat.
Proof.
  unfold loop_cond, frames_read, frame_limit.
  destruct (opt_frames opts) as [fr|]; [|discriminate].
  destruct (Z.eqb_spec fr 0); [discriminate|]. cbn [orb].
  intros Hlt. apply Z.ltb_ge in Hlt.
  replace (Z.to_nat (opt_first opts + fr - frame)) with 0%nat by lia.
  apply Nat.min_0_r.
Qed.

Lemma frames_read_none (opts : Options) (frame : Z) :
  frames_read opts frame 0 = 0%nat.
Proof. unfold frames_read. destruct (frame_limit opts); reflexivity. Qed.

Lemma copied_nothing (opts : Options) (frame : Z) (len : nat) (input : np.file) :
  frames_read opts frame (List.length input / len) = 0%nat ->
  copied opts frame len input = [].
Proof.
  intros E. unfold copied. rewrite E. cbn [Nat.mul firstn]. apply skipn_nil.
Qed.

Lemma copied_step (opts : Options) (frame : Z) (len : nat) (input : np.file) :
  (0 < len)%nat -> (len <= List.length input)%nat ->
  loop_cond opts frame = true ->
  copied opts frame len input
  = (if opt_first opts <=? frame then firstn len input else [])
    ++ copied opts (frame + 1) len (skipn len input).
Proof.
  intros Hlen Hfull Hcond. unfold copied.
  rewrite length_skipn.
  rewrite (div_sub_same _ _ Hlen Hfull), (frames_read_step _ _ _ Hcond).
  set (k := frames_read opts (frame + 1) ((List.length input - len) / len)).
  cbn [Nat.mul]. rewrite firstn_add.
  assert (Lf : List.length (firstn len input) = len)
    by (apply firstn_length_le; exact Hfull).
  destruct (Z.leb_spec (opt_first opts) frame) as [Hle|Hgt].
  - replace (Z.to_nat (opt_first opts - frame)) with 0%nat by lia.
    replace (Z.to_nat (opt_first opts - (frame + 1))) with 0%nat by lia.
    reflexivity.
  - replace (Z.to_nat (opt_first opts - frame))
      with (S (Z.to_nat (opt_first opts - (frame + 1)))) by lia.
    generalize (Z.to_nat (opt_first opts - (frame + 1))). intros m0.
    cbn [Nat.mul app]. rewrite skipn_app, Lf.
    rewrite skipn_all2 by lia. cbn [app]. f_equal. lia.
Qed.

(** For a handler whose luma size is a valid count, the loop of [main]
    ends, and what it leaves in the output file is a
    byte-for-byte copy of input frames: with an input that holds [avail]
    whole frames it reads [avail] frames, or as many as remain up to index
    [first + frames] when a frame count is given, counts them, and appends
    to the output the bytes of those from index [first] on; bytes after the
    last whole frame are not copied. Without an output handler the output
    is untouched. *)
Theorem main_loop_copies_frames (n m : string) (w h c d : Z)
    (handle : YuvFile) (opts : Options) (ohandle : option YuvFile)
    (fuel : nat) (st : loop_state) :
  YuvFile_init n m w h c d = Return handle -> valid_geometry w h ->
  y_size handle < 2 ^ 63 ->
  (List.length (ls_in st) / frame_len handle < fuel)%nat ->
  exists st',
    main_loop fuel opts handle ohandle st = Some (Return st') /\
    ls_frame st'
    = ls_frame st
      + Z.of_nat (frames_read opts (ls_frame st)
                    (List.length (ls_in st) / frame_len handle)) /\
    ls_out st'
    = match ohandle with
      | Some _ =>
          ls_out st ++ copied opts (ls_frame st) (frame_len handle) (ls_in st)
      | None => ls_out st
      end.
Proof.
  intros Hinit Hgeo _. pose proof Hgeo as (Hw & Hh & _).
  destruct (frame_len_sum _ _ _ _ _ _ _ Hinit Hw Hh) as (_ & _ & Hpos).
  set (F := frame_len handle) in *.
  revert st. induction fuel as [|fuel IH]; intros st Hfuel; [lia|].
  cbn [main_loop].
  destruct (loop_cond opts (ls_frame st)) eqn:Hcond.
  2:{ exists st. split; [reflexivity|].
      pose proof (frames_read_stop opts (ls_frame st)
                    (List.length (ls_in st) / F) Hcond) as E.
      rewrite (copied_nothing _ _ _ _ E), E. split; [cbn; lia|].
      destruct ohandle; [now rewrite app_nil_r | reflexivity]. }
  destruct (Nat.lt_ge_cases (List.length (ls_in st)) F) as [Hshort|Hfull].
  - rewrite (read_frame_short _ _ _ _ _ _ _ _ Hinit Hw Hh Hshort).
    cbn [sentinel np.empty np.size np.shape fst snd Nat.mul Nat.eqb].
    eexists. split; [reflexivity|]. cbn [ls_frame ls_out].
    assert (E : frames_read opts (ls_frame st) (List.length (ls_in st) / F) = 0%nat).
    { rewrite Nat.div_small by exact Hshort. apply frames_read_none. }
    rewrite (copied_nothing _ _ _ _ E), E. split; [cbn; lia|].
    destruct ohandle; [now rewrite app_nil_r | reflexivity].
  - destruct (read_frame_planes _ _ _ _ _ _ _ (ls_in st) Hinit Hw Hh Hfull)
      as (y & u & v & Hrf & Hy & Hu & Hv & Hwr).
    fold F in Hrf, Hwr. rewrite Hrf.
    assert (Hsize : (np.size y =? 0)%nat = false).
    { destruct Hy as (yd & -> & _).
      destruct (init_fields _ _ _ _ _ _ _ Hinit)
        as (_ & _ & _ & _ & _ & _ & Hys & _).
      rewrite Hys. unfold np.size. cbn [np.shape fst snd]. apply Nat.eqb_neq.
      apply Nat.neq_mul_0. lia. }
    rewrite Hsize.
    assert (Hbody : exists log',
      loop_body opts handle ohandle st y u v (skipn F (ls_in st))
      = Return (mkLoop (skipn F (ls_in st))
                  (match ohandle with
                   | Some _ =>
                       ls_out st ++ (if opt_first opts <=? ls_frame st
                                     then firstn F (ls_in st) else [])
                   | None => ls_out st
                   end)
                  (ls_frame st + 1) log')).
    { unfold loop_body.
      destruct (opt_first opts <=? ls_frame st).
      - destruct (to_rgb_8b_of_read_frame _ _ _ _ _ _ _ y u v Hinit Hgeo Hy Hu Hv)
          as (r & g & b & Ergb).
        destruct (plot_cond opts (ls_frame st)); rewrite ?Ergb; cbn [bind];
          eexists; destruct ohandle; rewrite ?Hwr; reflexivity.
      - eexists. destruct ohandle; rewrite ?app_nil_r; reflexivity. }
    destruct Hbody as (log' & ->).
    match goal with |- context [main_loop fuel opts handle ohandle ?s] =>
      destruct (IH s) as (st' & Hrun & Hfr & Hout) end.
    { cbn [ls_in]. rewrite length_skipn.
      rewrite (div_sub_same _ _ Hpos Hfull) in Hfuel. lia. }
    exists st'. split; [exact Hrun|].
    cbn [ls_in ls_out ls_frame] in Hfr, Hout.
    rewrite length_skipn in Hfr.
    rewrite (div_sub_same _ _ Hpos Hfull), (frames_read_step _ _ _ Hcond).
    split; [rewrite Hfr; lia|].
    rewrite Hout. destruct ohandle; [|reflexivity].
    rewrite (copied_step opts (ls_frame st) F (ls_in st) Hpos Hfull Hcond).
    now rewrite <- app_assoc.
Qed.

Lemma main_loop_copies_frames_witness :
  exists st',
    main_loop 3
      (mkOptions [] (Some "in.yuv"%string) (Some "out.yuv"%string)
                 4 2 420 8 1 None (Some 1))
      demo_cfg (Some demo_cfg)
      (mkLoop (demo_frame_file
               ++ [x01; x02; x03; x04; x05; x06; x07; x08; x09; x0a; x0b; x0c]
               ++ demo_garbage) [] 0 [])
    = Some (Return st') /\
    ls_frame st' = 2 /\
    ls_out st' = [x01; x02; x03; x04; x05; x06; x07; x08; x09; x0a; x0b; x0c].
Proof.
  destruct (main_loop_copies_frames _ _ _ _ _ _ demo_cfg
              (mkOptions [] (Some "in.yuv"%string) (Some "out.yuv"%string)
                         4 2 420 8 1 None (Some 1))
              (Some demo_cfg) 3
              (mkLoop (demo_frame_file
                       ++ [x01; x02; x03; x04; x05; x06; x07; x08; x09; x0a; x0b; x0c]
                       ++ demo_garbage) [] 0 [])
              demo_cfg_init demo_geometry ltac:(reflexivity))
    as (st' & Hrun & Hfr & Hout).
  - vm_compute. lia.
  - exists st'. split; [exact Hrun|]. split.
    + rewrite Hfr. reflexivity.
    + rewrite Hout. reflexivity.
Defined.

(** Every frame [read_frame] returns is accepted by [to_rgb_8b]: with the
    geometry invariant, a file that holds a whole frame yields planes that
    the colour transform converts without raising, whatever the sample
    values, into three arrays of the shape of the luma plane. *)
Theorem read_frame_to_rgb_8b (n m : string) (w h c d : Z) (self : YuvFile)
    (f : np.file) :
  YuvFile_init n m w h c d = Return self -> valid_geometry w h ->
  frame_bytes self <= Z.of_nat (List.length f) ->
  exists y u v f' rd gd bd,
    read_frame self f = (Return (y, u, v), f') /\
    to_rgb_8b self y u v
    = Return (np.FArr (Z.to_nat h) (Z.to_nat w) rd,
              np.FArr (Z.to_nat h) (Z.to_nat w) gd,
              np.FArr (Z.to_nat h) (Z.to_nat w) bd) /\
    np.shape y = (Z.to_nat h, Z.to_nat w).
Proof.
  intros Hinit Hgeo Hlen. pose proof Hgeo as (Hw & Hh & _).
  destruct (read_frame_planes _ _ _ _ _ _ _ f Hinit Hw Hh)
    as (y & u & v & Hrf & Hy & Hu & Hv & _).
  { unfold frame_len. lia. }
  destruct Hy as (yd & -> & _). destruct Hu as (ud & -> & Hu).
  destruct Hv as (vd & -> & Hv).
  destruct (chroma_shape_nat _ _ _ _ _ _ _ Hinit Hgeo) as [Hr Hc].
  destruct (init_fields _ _ _ _ _ _ _ Hinit)
    as (_ & _ & _ & _ & _ & _ & Hys & _).
  rewrite Hys in *. cbn [fst snd] in *.
  destruct (to_rgb_8b_on_shapes self (dtype self) (dtype self) (dtype self)
              (Z.to_nat h) (Z.to_nat w) _ _ yd ud vd Hu Hv) as [Hok _].
  destruct Hok as (rd & gd & bd & E); [now rewrite Hr | now rewrite Hc|].
  do 7 eexists. split; [exact Hrf|]. split; [exact E | reflexivity].
Qed.

Lemma read_frame_to_rgb_8b_witness :
  exists y u v f' rd gd bd,
    read_frame demo_cfg (demo_frame_file ++ demo_garbage)
    = (Return (y, u, v), f') /\
    to_rgb_8b demo_cfg y u v
    = Return (np.FArr 2 4 rd, np.FArr 2 4 gd, np.FArr 2 4 bd).
Proof.
  destruct (read_frame_to_rgb_8b _ _ _ _ _ _ demo_cfg
              (demo_frame_file ++ demo_garbage) demo_cfg_init demo_geometry)
    as (y & u & v & f' & rd & gd & bd & Hrf & Hrgb & _).
  - vm_compute. discriminate.
  - exists y, u, v, f', rd, gd, bd. split; assumption.
Defined.

(** C5 as stated fails: at depth 10 the normalisation is not rounding half
    up on the dropped bits; the sample 2 is normalised to 0, rounding half
    up gives 1. *)
Lemma normalization_is_not_round_half_up :
  ~ (forall s, 0 <= s < 2 ^ 10 ->
       spec_norm8 demo_cfg10 s = round_half_up_shift s (shift demo_cfg10)) /\
  spec_norm8 demo_cfg10 2 = 0 /\
  round_half_up_shift 2 (shift demo_cfg10) = 1.
Proof.
  split; [|split; reflexivity].
  intros H. specialize (H 2 ltac:(cbn; lia)). discriminate H.
Qed.

(** C5 (as the code has it): the normalisation of [to_rgb_8b] computes
    [(sample + round) >> shift] on every valid sample, with shift 0 and
    bias 0 unless the depth is 10 (so it is the identity at 8 bits) and
    shift 2 and bias 1 at depth 10; the bias added before the shift rounds
    the dropped bits to the nearest integer, a half downwards. *)
Theorem normalization_rounds_half_down (n m : string) (w h c d : Z)
    (self : YuvFile) :
  YuvFile_init n m w h c d = Return self ->
  (d = DEPTH_10 -> shift self = 2 /\ round self = 1) /\
  (d <> DEPTH_10 ->
   shift self = 0 /\ round self = 0 /\ forall s, spec_norm8 self s = s) /\
  (forall s,
     spec_norm8 self s = round_half_down_shift s (shift self) /\
     - 2 ^ shift self < 2 * (s - spec_norm8 self s * 2 ^ shift self)
                     <= 2 ^ shift self) /\
  (forall r c0 data,
     Forall (fun x => 0 <= x < 2 ^ sample_bits self) data ->
     np.right_shift (np.add_int (np.IArr (dtype self) r c0 data) (round self))
                    (shift self)
     = Return (np.IArr (dtype self) r c0 (map (spec_norm8 self) data))).
Proof.
  intros Hinit.
  destruct (normalization_constants _ _ _ _ _ _ _ Hinit) as [H10 H8].
  split; [exact H10|]. split; [exact H8|]. split.
  - intros s. unfold round_half_down_shift.
    destruct (Z.eq_dec d DEPTH_10) as [E|E].
    + destruct (H10 E) as [Hs Hr]. unfold spec_norm8. rewrite Hs, Hr.
      rewrite Z.shiftr_div_pow2 by lia.
      change (2 ^ 2) with 4. change (2 ^ (2 + 1)) with 8.
      pose proof (Z.div_mod (s + 1) 4 ltac:(lia)) as D1.
      pose proof (Z.mod_pos_bound (s + 1) 4 ltac:(lia)) as B1.
      pose proof (Z.div_mod (2 * s + 4 - 1) 8 ltac:(lia)) as D2.
      pose proof (Z.mod_pos_bound (2 * s + 4 - 1) 8 ltac:(lia)) as B2.
      split; lia.
    + destruct (H8 E) as (Hs & Hr & Hid). rewrite Hid, Hs.
      change (2 ^ 0) with 1. change (2 ^ (0 + 1)) with 2.
      pose proof (Z.div_mod (2 * s + 1 - 1) 2 ltac:(lia)) as D2.
      pose proof (Z.mod_pos_bound (2 * s + 1 - 1) 2 ltac:(lia)) as B2.
      split; lia.
  - intros r c0 data Hdata. cbn [np.add_int np.right_shift].
    rewrite map_map. do 2 f_equal. apply map_ext_in. intros x Hx.
    rewrite Forall_forall in Hdata.
    destruct (norm8_facts _ _ _ _ _ _ _ x Hinit (Hdata x Hx)) as (E & _).
    rewrite E. reflexivity.
Qed.

Lemma normalization_rounds_half_down_witness :
  np.right_shift (np.add_int (np.IArr np.uint16 1 4 [0; 2; 3; 1023])
                             (round demo_cfg10)) (shift demo_cfg10)
  = Return (np.IArr np.uint16 1 4 [0; 0; 1; 256]) /\
  spec_norm8 demo_cfg10 2 = round_half_down_shift 2 2.
Proof.
  destruct (normalization_rounds_half_down _ _ _ _ _ _ demo_cfg10 demo_cfg10_init)
    as (_ & _ & Hn & Hshift).
  split.
  - refine (Hshift 1%nat 4%nat [0; 2; 3; 1023] _).
    repeat constructor; cbn; lia.
  - exact (proj1 (Hn 2)).
Defined.
